(** * l5kit: Ackerman perturbation of ego trajectories

    A shallow embedding of [l5kit/kinematic/ackerman_perturbation.py].

    The module perturbs the anchor pose of a recorded trajectory (history
    frames stored newest-first, future frames oldest-first), refits the
    whole trajectory with an external Ackerman steering fit and writes the
    fitted poses into copies of the caller's frame buffers.

    Numbers are kept behind an interface ([Scalar]) that lists the NumPy
    operations the module uses; the functions are written once over that
    interface and evaluated on binary64 floats ([Float64]) or reasoned about
    over the reals ([ExactReal]).  Arrays of frames live in a store of
    buffers addressed by location, so that [ndarray.copy] allocates. *)

From Stdlib Require Import String Reals Lra.
From Stdlib Require Import PrimFloat SpecFloat FloatOps.
From Stdlib Require Import ZArith List Bool Lia.
Import ListNotations.

Set Implicit Arguments.

(** ** Scalars *)

(** The arithmetic the module performs on array elements.  [f_1e_5] is the
    literal [0.00001]; [fgeb a b] is [a >= b] and [fltb a b] is [a < b];
    [to_float32] is the conversion done when a value is stored into an
    array of dtype [np.float32]. *)
Class Scalar (F : Type) : Type := {
  fzero : F;
  fone : F;
  ffive : F;
  f_1e_5 : F;
  fadd : F -> F -> F;
  fsub : F -> F -> F;
  fmul : F -> F -> F;
  fdiv : F -> F -> F;
  fneg : F -> F;
  fsqrt : F -> F;
  fabs : F -> F;
  fltb : F -> F -> bool;
  fgeb : F -> F -> bool;
  to_float32 : F -> F
}.

(** ** Python indexing *)

(** Resolution of a Python index against a sequence of [n] items: indices
    [0 <= i < n] are taken as they are, [-n <= i < 0] count from the end,
    anything else raises [IndexError] ([None]). *)
Definition py_index (n : nat) (i : Z) : option nat :=
  if ((0 <=? i) && (i <? Z.of_nat n))%Z then Some (Z.to_nat i)
  else if ((- Z.of_nat n <=? i) && (i <? 0))%Z then Some (Z.to_nat (Z.of_nat n + i))
  else None.

Definition py_get {A : Type} (l : list A) (i : Z) : option A :=
  match py_index (length l) i with
  | Some k => nth_error l k
  | None => None
  end.

(** [list_set l k v] overwrites slot [k]; out of range it leaves [l] as it is
    (callers resolve the index first). *)
Fixpoint list_set {A : Type} (l : list A) (k : nat) (v : A) : list A :=
  match l, k with
  | [], _ => []
  | _ :: r, O => v :: r
  | x :: r, S k' => x :: list_set r k' v
  end.

Definition py_set {A : Type} (l : list A) (i : Z) (v : A) : option (list A) :=
  match py_index (length l) i with
  | Some k => Some (list_set l k v)
  | None => None
  end.

(** Element-wise combination of two equally shaped rows. *)
Fixpoint map2 {A B C : Type} (f : A -> B -> C) (a : list A) (b : list B) : list C :=
  match a, b with
  | x :: a', y :: b' => f x y :: map2 f a' b'
  | _, _ => []
  end.

(** NumPy assignment [dst[...] = src] along the first axis: the shapes agree,
    or a single source row is broadcast to every destination row, or the
    assignment raises [ValueError]. *)
Definition np_assign {A B : Type} (upd : A -> B -> A) (dst : list A) (src : list B)
  : option (list A) :=
  if Nat.eqb (length src) (length dst) then Some (map2 upd dst src)
  else match src with
       | [s] => Some (map (fun d => upd d s) dst)
       | _ => None
       end.

(** The same assignment through the reversed view [dst[::-1]]. *)
Definition np_assign_rev {A B : Type} (upd : A -> B -> A) (dst : list A) (src : list B)
  : option (list A) :=
  option_map (@rev A) (np_assign upd (rev dst) src).

Section Geometry.

Context {F : Type} `{Scalar F}.

(** [np.linalg.norm] of a row: the square root of its dot product with
    itself, here accumulated left to right from zero.  NumPy leaves the
    order and the fusing of that accumulation to its BLAS, so in rounding
    arithmetic its value can differ from this one in the last place; in
    exact arithmetic, and wherever the squares and their sum are exact, the
    two agree.  The norm is taken over the whole row, whatever its width. *)
Definition sum_squares (v : list F) : F :=
  fold_left (fun acc x => fadd acc (fmul x x)) v fzero.

Definition norm (v : list F) : F := fsqrt (sum_squares v).

Definition vsub (a b : list F) : list F := map2 fsub a b.

(** [v /= np.linalg.norm(v)] *)
Definition normalized (v : list F) : list F :=
  let n := norm v in map (fun x => fdiv x n) v.

(** The return expression of [get_offset_at_idx]:
    [lateral_direction = [d[1], -d[0]]], then
    [lateral_offset_m * lateral_direction + longitudinal_offset_m * d[:2]].
    A direction with fewer than two components raises [IndexError]. *)
Definition offset_along (lateral_offset_m longitudinal_offset_m : F) (d : list F)
  : option (F * F) :=
  match nth_error d 1, nth_error d 0 with
  | Some d1, Some d0 =>
      Some (fadd (fmul lateral_offset_m d1) (fmul longitudinal_offset_m d0),
            fadd (fmul lateral_offset_m (fneg d0)) (fmul longitudinal_offset_m d1))
  | _, _ => None
  end.

(** The longitudinal direction chosen at lines 27-41: the step to the next
    point, or the overall displacement when that step is shorter than the
    threshold, or zero when both are. *)
Definition direction_at (trajectory : list (list F)) (perturbation_idx : Z)
  : option (list F) :=
  match py_get trajectory perturbation_idx,
        py_get trajectory (perturbation_idx + 1) with
  | Some point_to_be_perturbed, Some next_point_in_trajectory =>
      let longitudinal_direction := vsub next_point_in_trajectory point_to_be_perturbed in
      let consecutive_point_distance_threshold := f_1e_5 in
      if fltb (norm longitudinal_direction) consecutive_point_distance_threshold then
        match py_get trajectory (-1), py_get trajectory 0 with
        | Some last, Some first =>
            let longitudinal_direction := vsub last first in
            if fltb (norm longitudinal_direction) consecutive_point_distance_threshold
            then Some [fzero; fzero]
            else Some (normalized longitudinal_direction)
        | _, _ => None
        end
      else Some (normalized longitudinal_direction)
  | _, _ => None
  end.

Definition get_offset_at_idx (trajectory : list (list F)) (perturbation_idx : Z)
           (lateral_offset_m longitudinal_offset_m : F) : option (F * F) :=
  let num_frames := length trajectory in
  if (Z.of_nat num_frames <=? perturbation_idx + 1)%Z then Some (fzero, fzero)
  else match direction_at trajectory perturbation_idx with
       | Some longitudinal_direction =>
           offset_along lateral_offset_m longitudinal_offset_m longitudinal_direction
       | None => None
       end.

(** Finite-difference distance between two consecutive positions, as line
    74 writes it. *)
Definition step_length (p q : F * F) : F :=
  let dy := fsub (snd q) (snd p) in
  let dx := fsub (fst q) (fst p) in
  fsqrt (fadd (fmul dy dy) (fmul dx dx)).

(** [_compute_speeds_from_positions]: [speeds = zeros(N)], the first [N-1]
    slots receive the step lengths, and [speeds[-1] = speeds[-2]] raises
    [IndexError] when there are fewer than two positions. *)
Definition _compute_speeds_from_positions (trajectory : list (F * F))
  : option (list F) :=
  let n := length trajectory in
  let steps := map2 step_length (removelast trajectory) (tl trajectory) in
  let speeds := steps ++ skipn (length steps) (repeat fzero n) in
  match py_get speeds (-2) with
  | Some v => py_set speeds (-1) v
  | None => None
  end.

End Geometry.

(** ** Frames, poses and the collaborators *)

(** Modelled from the spec: the frame record type (declared with the dataset
    code, outside this module).  [perturb] reads and writes the first two
    coordinates of [ego_translation] and the whole of [ego_rotation]; the
    remaining coordinates and the other fields of a frame are carried along
    untouched. *)
Record Translation (F : Type) : Type := {
  tx : F;
  ty : F;
  trest : list F
}.

Record Frame (F Rot Other : Type) : Type := {
  ego_translation : Translation F;
  ego_rotation : Rot;
  frame_other : Other
}.

(** A row [(x, y, yaw)] of the joined trajectory. *)
Record Pose (F : Type) : Type := {
  px : F;
  py : F;
  pyaw : F
}.

(** The twelve arguments of the kinematic fit, in call order. *)
Record FitArgs (F : Type) : Type := {
  x0 : F; y0 : F; r0 : F; v0 : F;
  gx : list F; gy : list F; gr : list F; gv : list F;
  wgx : list F; wgy : list F; wgr : list F; wgv : list F
}.

(** The six sequences the fit returns. *)
Record FitResult (F : Type) : Type := {
  new_xs : list F; new_ys : list F; new_yaws : list F;
  new_vs : list F; new_acc : list F; new_steer : list F
}.

(** What the module imports: the yaw/rotation conversions of [..geometry],
    the fit of [.ackerman_steering_model] and NumPy's global random source
    (a state [Rng] threaded through the draws). *)
Class Collaborators (F Rot Rng : Type) : Type := {
  rotation33_as_yaw : Rot -> F;
  yaw_as_rotation33 : F -> Rot;
  fit_ackerman_model_exact : FitArgs F -> FitResult F;
  np_random_rand : Rng -> F * Rng
}.

(** The object state set by [__init__]. *)
Record AckermanPerturbation (F Rng : Type) : Type := {
  perturb_prob : F;
  random_offset_generator : Rng -> (F * F * F) * Rng
}.

(** The result of one call of [perturb]: the store and random state it
    leaves, the warnings it issued, the arguments it passed to the fit (when
    it got that far) and the two returned buffers ([None] when the call
    raised). *)
Record Outcome (F Rot Other Rng : Type) : Type := {
  out_store : list (list (Frame F Rot Other));
  out_rng : Rng;
  out_warnings : list string;
  out_fit_args : option (FitArgs F);
  out_result : option (nat * nat)
}.

Section Perturbation.

Context {F Rot Other Rng : Type} `{Scalar F} `{Collaborators F Rot Rng}.

Local Abbreviation frame := (Frame F Rot Other).
Local Abbreviation pose := (Pose F).
(** Buffers of frames, addressed by their position in the store. *)
Local Abbreviation Store := (list (list frame)).

Definition NUMERICAL_THRESHOLD : F := f_1e_5.

Definition pose_row (p : pose) : list F := [px p; py p; pyaw p].

Definition pose_xy (p : pose) : F * F := (px p, py p).

(** One slot of the [float32] array filled at lines 58-64. *)
Definition frame_pose (fr : frame) : pose :=
  {| px := to_float32 (tx (ego_translation fr));
     py := to_float32 (ty (ego_translation fr));
     pyaw := to_float32 (rotation33_as_yaw (ego_rotation fr)) |}.

Definition _get_history_and_future_frames_as_joint_trajectory
           (history_frames future_frames : list frame) : list pose :=
  map frame_pose (rev history_frames) ++ map frame_pose future_frames.

(** [frames["ego_translation"][k, :2] = row[:2]] *)
Definition set_xy (fr : frame) (p : pose) : frame :=
  {| ego_translation := {| tx := px p; ty := py p;
                           trest := trest (ego_translation fr) |};
     ego_rotation := ego_rotation fr;
     frame_other := frame_other fr |}.

(** [frames["ego_rotation"][k] = rot] *)
Definition set_rotation (fr : frame) (rot : Rot) : frame :=
  {| ego_translation := ego_translation fr;
     ego_rotation := rot;
     frame_other := frame_other fr |}.

(** Lines 165-173 on the contents of the two copies: the fitted rows are
    written back, the first [H] in reverse into the history buffer, the
    rest in order into the future buffer.  An empty [new_trajectory] is a
    one-dimensional array and indexing it raises. *)
Definition split_joint_trajectory (history_frames future_frames : list frame)
           (new_trajectory : list pose) : option (list frame * list frame) :=
  match new_trajectory with
  | [] => None
  | _ :: _ =>
      let new_yaws_as_rotations :=
        map (fun pos_yaw => yaw_as_rotation33 (pyaw pos_yaw)) new_trajectory in
      let num_history_frames := length history_frames in
      match np_assign_rev set_xy history_frames
              (firstn num_history_frames new_trajectory) with
      | None => None
      | Some h1 =>
      match np_assign_rev set_rotation h1
              (firstn num_history_frames new_yaws_as_rotations) with
      | None => None
      | Some h2 =>
      match np_assign set_xy future_frames
              (skipn num_history_frames new_trajectory) with
      | None => None
      | Some f1 =>
      match np_assign set_rotation f1
              (skipn num_history_frames new_yaws_as_rotations) with
      | None => None
      | Some f2 => Some (h2, f2)
      end end end end
  end.

(** Lines 121-126: the copy of the reference trajectory with the offset
    added to the anchor position and the yaw offset to the anchor yaw, both
    in place in the [float32] array. *)
Definition apply_offset (reference_traj_sample : list pose) (num_history_frames : nat)
           (offset_m : F * F) (yaw_offset_rad : F) : option (list pose) :=
  let anchor := (Z.of_nat num_history_frames - 1)%Z in
  match py_get reference_traj_sample anchor with
  | Some p =>
      py_set reference_traj_sample anchor
        {| px := to_float32 (fadd (px p) (fst offset_m));
           py := to_float32 (fadd (py p) (snd offset_m));
           pyaw := to_float32 (fadd (pyaw p) yaw_offset_rad) |}
  | None => None
  end.

(** Lines 131-146: targets, initial state and weights of the fit. *)
Definition fit_arguments (trajectory_with_offset_applied : list pose)
           (num_history_frames total_trajectory_length : nat) : option (FitArgs F) :=
  let anchor := (Z.of_nat num_history_frames - 1)%Z in
  match _compute_speeds_from_positions (map pose_xy trajectory_with_offset_applied) with
  | None => None
  | Some speeds =>
      match trajectory_with_offset_applied, speeds with
      | first :: _, v :: _ =>
          match py_set (repeat fone total_trajectory_length) anchor ffive,
                py_set (repeat fone total_trajectory_length) anchor ffive with
          | Some weights_x, Some weights_y =>
              Some {| x0 := px first; y0 := py first; r0 := pyaw first; v0 := v;
                      gx := map (@px F) trajectory_with_offset_applied;
                      gy := map (@py F) trajectory_with_offset_applied;
                      gr := map (@pyaw F) trajectory_with_offset_applied;
                      gv := speeds;
                      wgx := weights_x;
                      wgy := weights_y;
                      wgr := repeat fzero total_trajectory_length;
                      wgv := repeat fzero total_trajectory_length |}
          | _, _ => None
          end
      | _, _ => None
      end
  end.

(** [np.array(list(zip(new_xs, new_ys, new_yaws)))] *)
Fixpoint zip3 (xs ys yaws : list F) : list pose :=
  match xs, ys, yaws with
  | x :: xs', y :: ys', r :: yaws' =>
      {| px := x; py := y; pyaw := r |} :: zip3 xs' ys' yaws'
  | _, _, _ => []
  end.

(** [return history_frames.copy(), future_frames.copy()]: two buffers are
    appended to the store and their locations returned. *)
Definition return_copies (s : Store) (g : Rng) (warnings : list string)
           (h f : list frame) : Outcome F Rot Other Rng :=
  {| out_store := (s ++ [h]) ++ [f];
     out_rng := g;
     out_warnings := warnings;
     out_fit_args := None;
     out_result := Some (length s, length (s ++ [h])) |}.

Definition raised (s : Store) (g : Rng) (args : option (FitArgs F))
  : Outcome F Rot Other Rng :=
  {| out_store := s; out_rng := g; out_warnings := [];
     out_fit_args := args; out_result := None |}.

Definition low_lateral_warning : string :=
  "ack not applied because of low lateral_distance".

Definition perturb (self : AckermanPerturbation F Rng) (s : Store) (g : Rng)
           (history_frames future_frames : nat) : Outcome F Rot Other Rng :=
  match nth_error s history_frames, nth_error s future_frames with
  | Some h, Some f =>
      let '(u, g1) := np_random_rand g in
      if fgeb u (perturb_prob self) then return_copies s g1 [] h f
      else
        let '(lateral_offset_m, longitudinal_offset_m, yaw_offset_rad, g2) :=
          random_offset_generator self g1 in
        if fltb (fabs lateral_offset_m) NUMERICAL_THRESHOLD
        then return_copies s g2 [low_lateral_warning] h f
        else
          let num_history_frames := length h in
          let num_future_frames := length f in
          let total_trajectory_length := num_history_frames + num_future_frames in
          if total_trajectory_length <? 2 then return_copies s g2 [] h f
          else
            let reference_traj_sample :=
              _get_history_and_future_frames_as_joint_trajectory h f in
            match get_offset_at_idx (map pose_row reference_traj_sample)
                    (Z.of_nat num_history_frames - 1)
                    lateral_offset_m longitudinal_offset_m with
            | None => raised s g2 None
            | Some offset_m =>
            match apply_offset reference_traj_sample num_history_frames
                    offset_m yaw_offset_rad with
            | None => raised s g2 None
            | Some trajectory_with_offset_applied =>
            match fit_arguments trajectory_with_offset_applied
                    num_history_frames total_trajectory_length with
            | None => raised s g2 None
            | Some args =>
                let fitted := fit_ackerman_model_exact args in
                let new_trajectory :=
                  zip3 (new_xs fitted) (new_ys fitted) (new_yaws fitted) in
                let s1 := s ++ [h] in
                let new_history_frames := length s in
                let s2 := s1 ++ [f] in
                let new_future_frames := length s1 in
                match split_joint_trajectory h f new_trajectory with
                | None => raised s2 g2 (Some args)
                | Some (h', f') =>
                    {| out_store :=
                         list_set (list_set s2 new_history_frames h')
                                  new_future_frames f';
                       out_rng := g2;
                       out_warnings := [];
                       out_fit_args := Some args;
                       out_result := Some (new_history_frames, new_future_frames) |}
                end
            end end end
  | _, _ => raised s g None
  end.

(** What an early return leaves behind: two new buffers holding the values
    [h] and [f] of the inputs, at locations the store [s] did not have
    before, with the input buffers as they were. *)
Definition returned_copies (s : Store) (history_frames future_frames : nat)
           (h f : list frame) (r : Outcome F Rot Other Rng) : Prop :=
  exists new_history_frames new_future_frames,
    out_result r = Some (new_history_frames, new_future_frames) /\
    nth_error (out_store r) new_history_frames = Some h /\
    nth_error (out_store r) new_future_frames = Some f /\
    length s <= new_history_frames /\
    length s <= new_future_frames /\
    new_history_frames <> new_future_frames /\
    nth_error (out_store r) history_frames = Some h /\
    nth_error (out_store r) future_frames = Some f.

(** The length contract of the fit on one call: the three sequences that
    [perturb] consumes have [n] entries. *)
Definition fit_returns_length (n : nat) (a : FitArgs F) : Prop :=
  length (new_xs (fit_ackerman_model_exact a)) = n /\
  length (new_ys (fit_ackerman_model_exact a)) = n /\
  length (new_yaws (fit_ackerman_model_exact a)) = n.

(** A frame after one trip through the joined trajectory and back: its
    position stored as [float32], its rotation rebuilt from the stored yaw. *)
Definition restored_frame (fr : frame) : frame :=
  set_rotation (set_xy fr (frame_pose fr))
               (yaw_as_rotation33 (pyaw (frame_pose fr))).

(** The frame loses nothing on that trip: its planar coordinates are
    [float32] values and its rotation is the one the conversions give back
    from its stored yaw. *)
Definition survives_joint_storage (fr : frame) : Prop :=
  to_float32 (tx (ego_translation fr)) = tx (ego_translation fr) /\
  to_float32 (ty (ego_translation fr)) = ty (ego_translation fr) /\
  yaw_as_rotation33 (to_float32 (rotation33_as_yaw (ego_rotation fr))) =
    ego_rotation fr.

End Perturbation.

(** ** Instances *)

(** IEEE binary64 arithmetic, the element type of NumPy's default arrays.
    Inside [perturb] the joined trajectory is a [float32] array and NumPy
    rounds every operation on it to binary32; this instance rounds to
    binary32 only where [to_float32] is written, so a value it computes for
    [perturb] can differ from a run in the last [float32] place.  It is used
    to evaluate the functions on inputs, for statements that do not depend
    on that place. *)
Module Float64.

(** Rounding of a binary64 value to the nearest binary32 value (ties to
    even, overflow to infinity), returned as the binary64 value it denotes. *)
Definition round_to_float32 (x : float) : float :=
  match Prim2SF x with
  | S754_finite s m e =>
      SF2Prim (binary_normalize 24 128 (cond_Zopp s (Zpos m)) e s)
  | _ => x
  end.

#[export] Instance scalar : Scalar float := {|
  fzero := 0%float;
  fone := 1%float;
  ffive := 5%float;
  f_1e_5 := 0x1.4f8b588e368f1p-17%float;
  fadd := PrimFloat.add;
  fsub := PrimFloat.sub;
  fmul := PrimFloat.mul;
  fdiv := PrimFloat.div;
  fneg := PrimFloat.opp;
  fsqrt := PrimFloat.sqrt;
  fabs := PrimFloat.abs;
  fltb := PrimFloat.ltb;
  fgeb := fun a b => PrimFloat.leb b a;
  to_float32 := round_to_float32
|}.

End Float64.

(** Exact real arithmetic: no rounding anywhere, storing into a [float32]
    array included. *)
Module ExactReal.

Definition Rltb (x y : R) : bool := if Rlt_dec x y then true else false.

Definition Rgeb (x y : R) : bool := if Rge_dec x y then true else false.

#[export] Instance scalar : Scalar R := {|
  fzero := 0%R;
  fone := 1%R;
  ffive := 5%R;
  f_1e_5 := (1 / 100000)%R;
  fadd := Rplus;
  fsub := Rminus;
  fmul := Rmult;
  fdiv := Rdiv;
  fneg := Ropp;
  fsqrt := R_sqrt.sqrt;
  fabs := Rabs;
  fltb := Rltb;
  fgeb := Rgeb;
  to_float32 := fun x => x
|}.

End ExactReal.

(** Deterministic stand-ins for the collaborators, as a test would inject
    them: a rotation is represented by its yaw, the fit returns its targets,
    and the random source replays a tape of draws. *)
Module Stub.

Definition identity_fit {F : Type} (a : FitArgs F) : FitResult F :=
  {| new_xs := gx a; new_ys := gy a; new_yaws := gr a;
     new_vs := gv a; new_acc := []; new_steer := [] |}.

Definition tape_rand {F : Type} (dflt : F) (g : list F) : F * list F :=
  (hd dflt g, tl g).

#[export] Instance float_collaborators : Collaborators float float (list float) := {|
  rotation33_as_yaw := fun r => r;
  yaw_as_rotation33 := fun y => y;
  fit_ackerman_model_exact := identity_fit;
  np_random_rand := tape_rand 0%float
|}.

#[export] Instance real_collaborators : Collaborators R R (list R) := {|
  rotation33_as_yaw := fun r => r;
  yaw_as_rotation33 := fun y => y;
  fit_ackerman_model_exact := identity_fit;
  np_random_rand := tape_rand 0%R
|}.

(** A frame at [(x, y, 0)] heading [yaw]. *)
Definition frame_at {F : Type} (z : F) (x y yaw : F) : Frame F F unit :=
  {| ego_translation := {| tx := x; ty := y; trest := [z] |};
     ego_rotation := yaw;
     frame_other := tt |}.

(** An object whose sampler always returns the given offset. *)
Definition fixed_offset {F : Type} (prob lat lon yaw : F) : AckermanPerturbation F (list F) :=
  {| perturb_prob := prob;
     random_offset_generator := fun g => (lat, lon, yaw, g) |}.

(** Sample buffers: a history of two frames (newest first) and a future of
    one or two, all at coordinates that [float32] holds exactly. *)
Definition history2 : list (Frame float float unit) :=
  [frame_at 0 1 0 0; frame_at 0 0.5 0 0]%float.

Definition future1 : list (Frame float float unit) :=
  [frame_at 0 2 0.5 0]%float.

Definition future2 : list (Frame float float unit) :=
  [frame_at 0 2 0.5 0; frame_at 0 4 1 0]%float.

(** A history frame whose first coordinate, the binary64 value nearest to
    one tenth, is not a [float32] value. *)
Definition history_tenth : list (Frame float float unit) :=
  [frame_at 0 0x1.999999999999ap-4 0 0]%float.

End Stub.

(** ** Notions used to state what [perturb] reads and writes *)

(** The row that the Python index [num_history_frames - 1] denotes in an
    array of [total_trajectory_length] rows: the last history row, or, with
    an empty history, the last row of all (index [-1]). *)
Definition anchor_slot (num_history_frames total_trajectory_length : nat) : nat :=
  if Nat.eqb num_history_frames 0 then total_trajectory_length - 1
  else num_history_frames - 1.

Section WrittenFrames.

Context {F Rot Other Rng : Type} `{Scalar F} `{Collaborators F Rot Rng}.

(** A frame after lines 169-173 have written the fitted row [p] into it. *)
Definition written_back (fr : Frame F Rot Other) (p : Pose F) : Frame F Rot Other :=
  set_rotation (set_xy fr p) (yaw_as_rotation33 (pyaw p)).

(** The parts of a frame that [perturb] has no statement writing to. *)
Definition same_untouched_fields (a b : Frame F Rot Other) : Prop :=
  trest (ego_translation a) = trest (ego_translation b) /\
  frame_other a = frame_other b.

End WrittenFrames.

(** A fit that returns no sample at all. *)
Module EmptyFit.

Definition empty_fit {F : Type} (a : FitArgs F) : FitResult F :=
  {| new_xs := []; new_ys := []; new_yaws := [];
     new_vs := []; new_acc := []; new_steer := [] |}.

Definition collaborators : Collaborators float float (list float) := {|
  rotation33_as_yaw := fun r => r;
  yaw_as_rotation33 := fun y => y;
  fit_ackerman_model_exact := empty_fit;
  np_random_rand := Stub.tape_rand 0%float
|}.

End EmptyFit.

(** * Properties *)

Unset Implicit Arguments.

(** ** Indexing and list updates *)

Lemma py_index_nonneg (n : nat) (i : Z) :
  (0 <= i < Z.of_nat n)%Z -> py_index n i = Some (Z.to_nat i).
Proof.
  intros Hi. unfold py_index.
  destruct (Z.leb_spec 0 i); [|lia].
  destruct (Z.ltb_spec i (Z.of_nat n)); [reflexivity|lia].
Qed.

Lemma py_index_negative (n : nat) (i : Z) :
  (- Z.of_nat n <= i < 0)%Z -> py_index n i = Some (Z.to_nat (Z.of_nat n + i)).
Proof.
  intros Hi. unfold py_index.
  destruct (Z.leb_spec 0 i); [lia|]. simpl.
  destruct (Z.leb_spec (- Z.of_nat n) i); [|lia].
  destruct (Z.ltb_spec i 0); [reflexivity|lia].
Qed.

Lemma py_index_bound (n : nat) (i : Z) (k : nat) :
  py_index n i = Some k -> k < n.
Proof.
  unfold py_index.
  destruct (Z.leb_spec 0 i); simpl.
  - destruct (Z.ltb_spec i (Z.of_nat n)); simpl.
    + intros [= <-]. lia.
    + destruct (Z.leb_spec (- Z.of_nat n) i); simpl; [|discriminate].
      destruct (Z.ltb_spec i 0); [lia|discriminate].
  - destruct (Z.leb_spec (- Z.of_nat n) i); simpl; [|discriminate].
    destruct (Z.ltb_spec i 0); [|discriminate].
    intros [= <-]. lia.
Qed.

Lemma py_index_range (n : nat) (i : Z) (k : nat) :
  py_index n i = Some k -> (- Z.of_nat n <= i < Z.of_nat n)%Z.
Proof.
  unfold py_index.
  destruct (Z.leb_spec 0 i); simpl.
  - destruct (Z.ltb_spec i (Z.of_nat n)); simpl; [lia|].
    destruct (Z.leb_spec (- Z.of_nat n) i); simpl; [|discriminate].
    destruct (Z.ltb_spec i 0); [lia|discriminate].
  - destruct (Z.leb_spec (- Z.of_nat n) i); simpl; [|discriminate].
    destruct (Z.ltb_spec i 0); [lia|discriminate].
Qed.

Lemma py_get_nonneg {A : Type} (l : list A) (i : Z) :
  (0 <= i < Z.of_nat (length l))%Z -> py_get l i = nth_error l (Z.to_nat i).
Proof. intros Hi. unfold py_get. now rewrite py_index_nonneg. Qed.

Lemma py_get_is_some {A : Type} (l : list A) (i : Z) :
  (- Z.of_nat (length l) <= i < Z.of_nat (length l))%Z ->
  exists x, py_get l i = Some x.
Proof.
  intros Hi. unfold py_get.
  destruct (py_index (length l) i) as [k|] eqn:E.
  - apply py_index_bound in E.
    destruct (nth_error l k) eqn:N; [eauto|].
    apply nth_error_None in N. lia.
  - exfalso. destruct (Z.lt_ge_cases i 0).
    + rewrite py_index_negative in E by lia. discriminate.
    + rewrite py_index_nonneg in E by lia. discriminate.
Qed.

Lemma py_get_some_range {A : Type} (l : list A) (i : Z) (x : A) :
  py_get l i = Some x -> (- Z.of_nat (length l) <= i < Z.of_nat (length l))%Z.
Proof.
  unfold py_get. destruct (py_index (length l) i) eqn:E; [|discriminate].
  intros _. eapply py_index_range; eauto.
Qed.

Lemma length_list_set {A : Type} (l : list A) (k : nat) (v : A) :
  length (list_set l k v) = length l.
Proof.
  revert k. induction l as [|x r IH]; intros [|k]; simpl; auto.
Qed.

Lemma nth_error_list_set_eq {A : Type} (l : list A) (k : nat) (v : A) :
  k < length l -> nth_error (list_set l k v) k = Some v.
Proof.
  revert k. induction l as [|x r IH]; intros [|k] Hk; simpl in *; try lia; auto.
  apply IH. lia.
Qed.

Lemma nth_error_list_set_ne {A : Type} (l : list A) (k j : nat) (v : A) :
  k <> j -> nth_error (list_set l k v) j = nth_error l j.
Proof.
  revert k j. induction l as [|x r IH]; intros [|k] [|j] Hkj; simpl; auto.
  congruence.
Qed.

Lemma list_set_map {A B : Type} (g : A -> B) (l : list A) (k : nat) (v : A) :
  map g (list_set l k v) = list_set (map g l) k (g v).
Proof.
  revert k. induction l as [|x r IH]; intros [|k]; simpl; auto.
  now rewrite IH.
Qed.

Lemma length_map2 {A B C : Type} (f : A -> B -> C) (a : list A) (b : list B) :
  length (map2 f a b) = Nat.min (length a) (length b).
Proof.
  revert b. induction a as [|x a IH]; intros [|y b]; simpl; auto.
Qed.

Lemma nth_error_map2 {A B C : Type} (f : A -> B -> C) (a : list A) (b : list B)
      (k : nat) (x : A) (y : B) :
  nth_error a k = Some x -> nth_error b k = Some y ->
  nth_error (map2 f a b) k = Some (f x y).
Proof.
  revert b k. induction a as [|x' a IH]; intros [|y' b] [|k]; simpl;
    try discriminate.
  - now intros [= ->] [= ->].
  - apply IH.
Qed.

Lemma map2_map_r {A B : Type} (upd : A -> B -> A) (g : A -> B) (l : list A) :
  map2 upd l (map g l) = map (fun a => upd a (g a)) l.
Proof. induction l as [|x r IH]; simpl; congruence. Qed.

Lemma map_fixpoint {A : Type} (g : A -> A) (l : list A) :
  Forall (fun a => g a = a) l -> map g l = l.
Proof. induction 1; simpl; congruence. Qed.

(** ** The store under [return_copies] *)

Section StoreFacts.

Context {F Rot Other Rng : Type}.

Local Abbreviation frame := (Frame F Rot Other).

Lemma store_lookup_extended (s : list (list frame)) (h f a : list frame) (l : nat) :
  nth_error s l = Some a -> nth_error ((s ++ [h]) ++ [f]) l = Some a.
Proof.
  intros Hl. assert (l < length s) by (apply nth_error_Some; congruence).
  rewrite nth_error_app1 by (rewrite length_app; lia).
  now rewrite nth_error_app1.
Qed.

Lemma store_lookup_first_copy (s : list (list frame)) (h f : list frame) :
  nth_error ((s ++ [h]) ++ [f]) (length s) = Some h.
Proof.
  rewrite nth_error_app1 by (rewrite length_app; simpl; lia).
  rewrite nth_error_app2 by lia. now rewrite Nat.sub_diag.
Qed.

Lemma store_lookup_second_copy (s : list (list frame)) (h f : list frame) :
  nth_error ((s ++ [h]) ++ [f]) (length (s ++ [h])) = Some f.
Proof.
  rewrite nth_error_app2 by lia. now rewrite Nat.sub_diag.
Qed.

End StoreFacts.

(** ** The three early returns of [perturb] *)

Section EarlyReturns.

Context {F Rot Other Rng : Type} `{Scalar F} `{Collaborators F Rot Rng}.

Local Abbreviation frame := (Frame F Rot Other).

Variable self : AckermanPerturbation F Rng.
Variable s : list (list frame).
Variables history_frames future_frames : nat.
Variables h f : list frame.
Hypothesis history_in_store : nth_error s history_frames = Some h.
Hypothesis future_in_store : nth_error s future_frames = Some f.

Lemma return_copies_returned_copies (g : Rng) (w : list string) :
  returned_copies s history_frames future_frames h f (return_copies s g w h f).
Proof.
  exists (length s), (length (s ++ [h])). cbn [return_copies out_result out_store].
  rewrite length_app. cbn [length].
  repeat split; try lia.
  - apply store_lookup_first_copy.
  - replace (length s + 1) with (length (s ++ [h])) by (rewrite length_app; reflexivity).
    apply store_lookup_second_copy.
  - now apply store_lookup_extended.
  - now apply store_lookup_extended.
Qed.

Lemma perturb_gate_closed (g g1 : Rng) (u : F) :
  np_random_rand g = (u, g1) ->
  fgeb u (perturb_prob self) = true ->
  perturb self s g history_frames future_frames = return_copies s g1 [] h f.
Proof.
  intros Hu Hgate. unfold perturb.
  rewrite history_in_store, future_in_store, Hu, Hgate. reflexivity.
Qed.

Lemma perturb_low_lateral (g g1 g2 : Rng) (u lat lon yaw : F) :
  np_random_rand g = (u, g1) ->
  fgeb u (perturb_prob self) = false ->
  random_offset_generator self g1 = (lat, lon, yaw, g2) ->
  fltb (fabs lat) NUMERICAL_THRESHOLD = true ->
  perturb self s g history_frames future_frames =
  return_copies s g2 [low_lateral_warning] h f.
Proof.
  intros Hu Hgate Hoff Hlat. unfold perturb.
  rewrite history_in_store, future_in_store, Hu, Hgate, Hoff, Hlat. reflexivity.
Qed.

Lemma perturb_short_trajectory (g : Rng) :
  length h + length f < 2 ->
  exists g' w, perturb self s g history_frames future_frames = return_copies s g' w h f.
Proof.
  intros Hshort. unfold perturb.
  rewrite history_in_store, future_in_store.
  destruct (np_random_rand g) as [u g1].
  destruct (fgeb u (perturb_prob self)); [eauto|].
  destruct (random_offset_generator self g1) as [[[lat lon] yaw] g2].
  destruct (fltb (fabs lat) NUMERICAL_THRESHOLD); [eauto|].
  destruct (Nat.ltb_spec (length h + length f) 2); [eauto|lia].
Qed.

(** C1: when the gate passes and the sampled lateral offset is below
    [1e-5] in absolute value, [perturb] returns (it does not raise) two
    buffers whose values are those of the history and future frames,
    whatever the sampled longitudinal and yaw offsets; it issues the
    low-lateral-distance warning and the fit is not called. *)
Theorem perturb_low_lateral_returns_copies (g g1 g2 : Rng) (u lat lon yaw : F) :
  np_random_rand g = (u, g1) ->
  fgeb u (perturb_prob self) = false ->
  random_offset_generator self g1 = (lat, lon, yaw, g2) ->
  fltb (fabs lat) NUMERICAL_THRESHOLD = true ->
  returned_copies s history_frames future_frames h f
    (perturb self s g history_frames future_frames) /\
  out_warnings (perturb self s g history_frames future_frames) = [low_lateral_warning] /\
  out_fit_args (perturb self s g history_frames future_frames) = None.
Proof.
  intros Hu Hgate Hoff Hlat.
  rewrite (perturb_low_lateral g g1 g2 u lat lon yaw Hu Hgate Hoff Hlat).
  split; [apply return_copies_returned_copies|]. split; reflexivity.
Qed.

(** C2: with fewer than two frames in total, [perturb] returns buffers whose
    values are those of the inputs on every path, and the fit is not
    called. *)
Theorem perturb_short_trajectory_returns_copies (g : Rng) :
  length h + length f < 2 ->
  returned_copies s history_frames future_frames h f
    (perturb self s g history_frames future_frames) /\
  out_fit_args (perturb self s g history_frames future_frames) = None.
Proof.
  intros Hshort.
  destruct (perturb_short_trajectory g Hshort) as (g' & w & ->).
  split; [apply return_copies_returned_copies|reflexivity].
Qed.

(** C3: when the uniform draw is at least [perturb_prob], the returned
    buffers hold the values of the inputs in storage of their own: they sit
    at locations the caller's store did not have, and overwriting them
    leaves the input buffers as they were. *)
Theorem perturb_gate_closed_returns_independent_copies (g g1 : Rng) (u : F) :
  np_random_rand g = (u, g1) ->
  fgeb u (perturb_prob self) = true ->
  exists new_history_frames new_future_frames,
    let r := perturb self s g history_frames future_frames in
    out_result r = Some (new_history_frames, new_future_frames) /\
    nth_error (out_store r) new_history_frames = Some h /\
    nth_error (out_store r) new_future_frames = Some f /\
    new_history_frames <> history_frames /\ new_history_frames <> future_frames /\
    new_future_frames <> history_frames /\ new_future_frames <> future_frames /\
    new_history_frames <> new_future_frames /\
    forall v w : list frame,
      let s' := list_set (list_set (out_store r) new_history_frames v)
                         new_future_frames w in
      nth_error s' history_frames = Some h /\ nth_error s' future_frames = Some f.
Proof.
  intros Hu Hgate. rewrite (perturb_gate_closed g g1 u Hu Hgate).
  destruct (return_copies_returned_copies g1 [])
    as (nh & nf & Hres & Hnh & Hnf & Hfh & Hff & Hne & Hh & Hf).
  assert (history_frames < length s) by (apply nth_error_Some; congruence).
  assert (future_frames < length s) by (apply nth_error_Some; congruence).
  exists nh, nf. cbv zeta.
  repeat split; auto; try lia.
  - rewrite !nth_error_list_set_ne by lia. exact Hh.
  - rewrite !nth_error_list_set_ne by lia. exact Hf.
Qed.

End EarlyReturns.

(** ** The perturbation path never raises before the fit *)

Section FullPath.

Context {F Rot Other Rng : Type} `{Scalar F} `{Collaborators F Rot Rng}.

Local Abbreviation frame := (Frame F Rot Other).
Local Abbreviation pose := (Pose F).

Lemma length_joint_trajectory (h f : list frame) :
  length (_get_history_and_future_frames_as_joint_trajectory h f) = length h + length f.
Proof.
  unfold _get_history_and_future_frames_as_joint_trajectory.
  now rewrite length_app, !length_map, length_rev.
Qed.

Lemma py_get_pose_row (traj : list pose) (i : Z) (r : list F) :
  py_get (map pose_row traj) i = Some r -> exists p, r = pose_row p.
Proof.
  unfold py_get. destruct (py_index _ i) as [k|]; [|discriminate].
  intros Hk. apply nth_error_In in Hk. apply in_map_iff in Hk.
  destruct Hk as (p & <- & _). now exists p.
Qed.

Lemma offset_along_defined (lat lon : F) (d : list F) :
  2 <= length d -> exists o, offset_along lat lon d = Some o.
Proof.
  destruct d as [|d0 [|d1 d]]; simpl; try lia. intros _.
  unfold offset_along. simpl. eauto.
Qed.

Lemma direction_at_width (traj : list pose) (i : Z) (d : list F) :
  direction_at (map pose_row traj) i = Some d -> 2 <= length d.
Proof.
  unfold direction_at.
  destruct (py_get (map pose_row traj) i) as [p|] eqn:Hp; [|discriminate].
  destruct (py_get (map pose_row traj) (i + 1)) as [q|] eqn:Hq; [|discriminate].
  apply py_get_pose_row in Hp, Hq. destruct Hp as (p' & ->), Hq as (q' & ->).
  destruct (fltb _ _).
  - destruct (py_get (map pose_row traj) (-1)) as [l|] eqn:Hl; [|discriminate].
    destruct (py_get (map pose_row traj) 0) as [a|] eqn:Ha; [|discriminate].
    apply py_get_pose_row in Hl, Ha. destruct Hl as (l' & ->), Ha as (a' & ->).
    destruct (fltb _ _); intros [= <-]; simpl; lia.
  - intros [= <-]. simpl. lia.
Qed.

Lemma direction_at_defined (traj : list (list F)) (i : Z) :
  (- Z.of_nat (length traj) <= i)%Z -> (i + 1 < Z.of_nat (length traj))%Z ->
  exists d, direction_at traj i = Some d.
Proof.
  intros Hlo Hhi. unfold direction_at.
  destruct (py_get_is_some traj i) as (p & ->); [lia|].
  destruct (Z.eq_dec i (-1)) as [->|Hne].
  - destruct (py_get_is_some traj 0) as (q & Hq); [lia|].
    cbn [Z.add Z.pos_sub]. rewrite Hq.
    destruct (py_get_is_some traj (-1)) as (l & ->); [lia|].
    destruct (fltb _ _); [destruct (fltb _ _)|]; eauto.
  - destruct (py_get_is_some traj (i + 1)) as (q & ->); [lia|].
    destruct (py_get_is_some traj (-1)) as (l & ->); [lia|].
    destruct (py_get_is_some traj 0) as (a & ->); [lia|].
    destruct (fltb _ _); [destruct (fltb _ _)|]; eauto.
Qed.

Lemma get_offset_at_anchor_defined (traj : list pose) (n : nat) (lat lon : F) :
  1 <= length traj -> n <= length traj ->
  exists o, get_offset_at_idx (map pose_row traj) (Z.of_nat n - 1) lat lon = Some o.
Proof.
  intros Hlen Hn. unfold get_offset_at_idx. rewrite length_map.
  destruct (Z.leb_spec (Z.of_nat (length traj)) (Z.of_nat n - 1 + 1)); [eauto|].
  destruct (direction_at_defined (map pose_row traj) (Z.of_nat n - 1)) as (d & Hd);
    try (rewrite length_map; lia).
  rewrite Hd. apply offset_along_defined. eapply direction_at_width; eauto.
Qed.

Lemma apply_offset_defined (traj : list pose) (n : nat) (o : F * F) (yaw : F) :
  1 <= length traj -> n <= length traj ->
  exists t, apply_offset traj n o yaw = Some t /\ length t = length traj.
Proof.
  intros Hlen Hn. unfold apply_offset.
  destruct (py_get_is_some traj (Z.of_nat n - 1)) as (p & Hp); [lia|].
  rewrite Hp. unfold py_set. unfold py_get in Hp.
  destruct (py_index (length traj) (Z.of_nat n - 1)) as [k|]; [|discriminate].
  eexists; split; [reflexivity|]. apply length_list_set.
Qed.

Lemma length_removelast {A : Type} (l : list A) :
  length (removelast l) = length l - 1.
Proof.
  induction l as [|x [|y r] IH]; simpl in *; auto. rewrite IH. lia.
Qed.

Lemma length_tl {A : Type} (l : list A) : length (tl l) = length l - 1.
Proof. destruct l; simpl; lia. Qed.

(** The array [speeds] just before line 75. *)
Lemma length_speeds_before_copy (traj : list (F * F)) :
  let steps := map2 step_length (removelast traj) (tl traj) in
  length steps = length traj - 1 /\
  length (steps ++ skipn (length steps) (repeat fzero (length traj))) = length traj.
Proof.
  cbv zeta. rewrite length_app, length_skipn, repeat_length, length_map2,
    length_removelast, length_tl. lia.
Qed.

Lemma compute_speeds_defined (traj : list (F * F)) :
  2 <= length traj ->
  exists speeds, _compute_speeds_from_positions traj = Some speeds /\
                 length speeds = length traj.
Proof.
  intros Hlen. unfold _compute_speeds_from_positions.
  destruct (length_speeds_before_copy traj) as [_ Hs]. cbv zeta in Hs.
  set (speeds := _ ++ _) in *.
  destruct (py_get_is_some speeds (-2)) as (v & ->); [lia|].
  unfold py_set. rewrite py_index_negative by lia.
  eexists; split; [reflexivity|]. now rewrite length_list_set.
Qed.

Lemma fit_arguments_defined (traj : list pose) (n total : nat) :
  2 <= length traj -> n <= total -> 1 <= total ->
  exists a, fit_arguments traj n total = Some a.
Proof.
  intros Hlen Hn Htotal. unfold fit_arguments.
  destruct (compute_speeds_defined (map pose_xy traj)) as (speeds & -> & Hs);
    [now rewrite length_map|].
  rewrite length_map in Hs.
  destruct traj as [|p0 traj]; [simpl in Hlen; lia|].
  destruct speeds as [|v speeds]; [simpl in Hs; discriminate|].
  unfold py_set. rewrite repeat_length.
  destruct (py_index total (Z.of_nat n - 1)) as [k|] eqn:E; [eauto|].
  exfalso. destruct (Z.lt_ge_cases (Z.of_nat n - 1) 0).
  - rewrite py_index_negative in E by lia. discriminate.
  - rewrite py_index_nonneg in E by lia. discriminate.
Qed.

Lemma length_zip3 (xs ys yaws : list F) (n : nat) :
  length xs = n -> length ys = n -> length yaws = n -> length (zip3 xs ys yaws) = n.
Proof.
  revert ys yaws n.
  induction xs as [|x xs IH]; intros [|y ys] [|r yaws] [|n]; simpl;
    try discriminate; auto.
Qed.

Lemma np_assign_same_length {A B : Type} (upd : A -> B -> A) (dst : list A) (src : list B) :
  length src = length dst ->
  np_assign upd dst src = Some (map2 upd dst src).
Proof. intros E. unfold np_assign. now rewrite E, Nat.eqb_refl. Qed.

Lemma np_assign_length {A B : Type} (upd : A -> B -> A) (dst : list A) (src : list B)
      (res : list A) :
  np_assign upd dst src = Some res -> length res = length dst.
Proof.
  unfold np_assign. destruct (Nat.eqb_spec (length src) (length dst)) as [E|_].
  - intros [= <-]. rewrite length_map2. lia.
  - destruct src as [|b [|? ?]]; try discriminate.
    intros [= <-]. apply length_map.
Qed.

Lemma np_assign_rev_length {A B : Type} (upd : A -> B -> A) (dst : list A) (src : list B)
      (res : list A) :
  np_assign_rev upd dst src = Some res -> length res = length dst.
Proof.
  unfold np_assign_rev.
  destruct (np_assign upd (rev dst) src) as [l|] eqn:E; [|discriminate].
  intros [= <-]. apply np_assign_length in E.
  now rewrite length_rev in *.
Qed.

Lemma split_joint_trajectory_length (h f h' f' : list frame) (traj : list pose) :
  split_joint_trajectory h f traj = Some (h', f') ->
  length h' = length h /\ length f' = length f.
Proof.
  unfold split_joint_trajectory. destruct traj as [|p traj]; [discriminate|].
  destruct (np_assign_rev set_xy h _) as [h1|] eqn:E1; [|discriminate].
  destruct (np_assign_rev set_rotation h1 _) as [h2|] eqn:E2; [|discriminate].
  destruct (np_assign set_xy f _) as [f1|] eqn:E3; [|discriminate].
  destruct (np_assign set_rotation f1 _) as [f2|] eqn:E4; [|discriminate].
  intros [= <- <-].
  apply np_assign_rev_length in E1, E2. apply np_assign_length in E3, E4.
  split; congruence.
Qed.

Lemma split_joint_trajectory_defined (h f : list frame) (traj : list pose) :
  1 <= length traj -> length traj = length h + length f ->
  exists h' f', split_joint_trajectory h f traj = Some (h', f').
Proof.
  intros Hne Hlen. unfold split_joint_trajectory.
  destruct traj as [|p rest]; [simpl in Hne; lia|].
  cbv beta iota zeta. remember (p :: rest) as traj eqn:Et. clear Et p rest.
  unfold np_assign_rev.
  rewrite np_assign_same_length by (rewrite length_firstn, length_rev; lia).
  cbn [option_map].
  rewrite np_assign_same_length
    by (rewrite length_firstn, length_map, !length_rev, length_map2,
          length_firstn, length_rev; lia).
  cbn [option_map].
  rewrite np_assign_same_length by (rewrite length_skipn; lia).
  rewrite np_assign_same_length
    by (rewrite length_skipn, length_map, length_map2, length_skipn; lia).
  eauto.
Qed.

End FullPath.

(** ** Every path of [perturb] leaves the caller's buffers alone *)

Ltac destruct_perturb :=
  try unfold perturb;
  repeat match goal with
         | |- context [match ?x with _ => _ end] => destruct x eqn:?
         end.

Section Frame.

Context {F Rot Other Rng : Type} `{Scalar F} `{Collaborators F Rot Rng}.

Local Abbreviation frame := (Frame F Rot Other).

Variable self : AckermanPerturbation F Rng.
Variable s : list (list frame).
Variable g : Rng.
Variables history_frames future_frames : nat.

Lemma perturb_store_preserved (l : nat) (a : list frame) :
  nth_error s l = Some a ->
  nth_error (out_store (perturb self s g history_frames future_frames)) l = Some a.
Proof.
  intros Hl. assert (l < length s) by (apply nth_error_Some; congruence).
  destruct_perturb; cbn [out_store return_copies raised]; auto;
    try (now apply store_lookup_extended).
  rewrite !nth_error_list_set_ne by (rewrite ?length_app; simpl; lia).
  now apply store_lookup_extended.
Qed.

Lemma perturb_result_fresh (h f : list frame) (nh nf : nat) :
  nth_error s history_frames = Some h ->
  nth_error s future_frames = Some f ->
  out_result (perturb self s g history_frames future_frames) = Some (nh, nf) ->
  nh = length s /\ nf = S (length s) /\
  exists h' f',
    nth_error (out_store (perturb self s g history_frames future_frames)) nh = Some h' /\
    nth_error (out_store (perturb self s g history_frames future_frames)) nf = Some f' /\
    length h' = length h /\ length f' = length f.
Proof.
  intros Hh Hf. rewrite <- (Nat.add_1_r (length s)).
  replace (length s + 1) with (length (s ++ [h])) by (rewrite length_app; reflexivity).
  unfold perturb. rewrite Hh, Hf.
  destruct_perturb; cbn [out_result out_store return_copies raised];
    try discriminate; intros [= <- <-].
  1-3: split; [reflexivity|split; [reflexivity|]]; exists h, f;
       split; [apply store_lookup_first_copy|];
       split; [apply store_lookup_second_copy|]; split; reflexivity.
  split; [reflexivity|split; [reflexivity|]].
  match goal with
  | E : split_joint_trajectory _ _ _ = Some (?a, ?b) |- _ =>
      exists a, b; apply split_joint_trajectory_length in E; destruct E as [E1 E2]
  end.
  split; [|split; [|split; assumption]].
  - rewrite nth_error_list_set_ne by (rewrite length_app; simpl; lia).
    apply nth_error_list_set_eq. rewrite !length_app. simpl. lia.
  - apply nth_error_list_set_eq.
    rewrite length_list_set, !length_app. simpl. lia.
Qed.

Lemma perturb_reaches_fit (h f : list frame) (g1 g2 : Rng) (u lat lon yaw : F) :
  nth_error s history_frames = Some h ->
  nth_error s future_frames = Some f ->
  np_random_rand g = (u, g1) ->
  fgeb u (perturb_prob self) = false ->
  random_offset_generator self g1 = (lat, lon, yaw, g2) ->
  fltb (fabs lat) NUMERICAL_THRESHOLD = false ->
  2 <= length h + length f ->
  let reference_traj_sample := _get_history_and_future_frames_as_joint_trajectory h f in
  exists offset_m trajectory_with_offset_applied args,
    get_offset_at_idx (map pose_row reference_traj_sample)
      (Z.of_nat (length h) - 1) lat lon = Some offset_m /\
    apply_offset reference_traj_sample (length h) offset_m yaw =
      Some trajectory_with_offset_applied /\
    fit_arguments trajectory_with_offset_applied (length h) (length h + length f) =
      Some args /\
    out_fit_args (perturb self s g history_frames future_frames) = Some args /\
    (fit_returns_length (length h + length f) args ->
     out_result (perturb self s g history_frames future_frames) =
       Some (length s, S (length s))).
Proof.
  intros Hh Hf Hu Hgate Hoff Hlat Hlen ref.
  assert (Href : length ref = length h + length f) by apply length_joint_trajectory.
  destruct (get_offset_at_anchor_defined ref (length h) lat lon) as (o & Ho); try lia.
  destruct (apply_offset_defined ref (length h) o yaw) as (t & Ht & Htl); try lia.
  destruct (fit_arguments_defined t (length h) (length h + length f)) as (a & Ha);
    try lia.
  exists o, t, a. repeat (split; [assumption|]).
  unfold perturb. rewrite Hh, Hf, Hu, Hgate, Hoff, Hlat.
  destruct (Nat.ltb_spec (length h + length f) 2) as [|_]; [lia|].
  fold ref. rewrite Ho, Ht, Ha.
  split.
  - destruct (split_joint_trajectory h f _) as [[h' f']|]; reflexivity.
  - intros (Hx & Hy & Hr).
    destruct (split_joint_trajectory_defined h f
                (zip3 (new_xs (fit_ackerman_model_exact a))
                      (new_ys (fit_ackerman_model_exact a))
                      (new_yaws (fit_ackerman_model_exact a))))
      as (h' & f' & ->).
    + rewrite (length_zip3 _ _ _ _ Hx Hy Hr). lia.
    + apply (length_zip3 _ _ _ _ Hx Hy Hr).
    + cbn [out_result]. rewrite length_app. cbn [length].
      now rewrite Nat.add_1_r.
Qed.

Lemma perturb_returns (h f : list frame) :
  nth_error s history_frames = Some h ->
  nth_error s future_frames = Some f ->
  (forall a, out_fit_args (perturb self s g history_frames future_frames) = Some a ->
             fit_returns_length (length h + length f) a) ->
  out_result (perturb self s g history_frames future_frames) =
    Some (length s, S (length s)).
Proof.
  intros Hh Hf Hfit.
  destruct (np_random_rand g) as [u g1] eqn:Hu.
  destruct (fgeb u (perturb_prob self)) eqn:Hgate.
  { rewrite (perturb_gate_closed self s _ _ h f Hh Hf g g1 u Hu Hgate).
    cbn. rewrite length_app. cbn. now rewrite Nat.add_1_r. }
  destruct (random_offset_generator self g1) as [[[lat lon] yaw] g2] eqn:Hoff.
  destruct (fltb (fabs lat) NUMERICAL_THRESHOLD) eqn:Hlat.
  { rewrite (perturb_low_lateral self s _ _ h f Hh Hf g g1 g2 u lat lon yaw
               Hu Hgate Hoff Hlat).
    cbn. rewrite length_app. cbn. now rewrite Nat.add_1_r. }
  destruct (Nat.lt_ge_cases (length h + length f) 2) as [Hshort|Hlong].
  { destruct (perturb_short_trajectory self s _ _ h f Hh Hf g Hshort) as (g' & w & ->).
    cbn. rewrite length_app. cbn. now rewrite Nat.add_1_r. }
  destruct (perturb_reaches_fit h f g1 g2 u lat lon yaw Hh Hf Hu Hgate Hoff Hlat Hlong)
    as (o & t & a & _ & _ & _ & Hargs & Hret).
  apply Hret, Hfit, Hargs.
Qed.

(** C4: on every path of [perturb] the caller's history and future buffers
    hold after the call the values they held before it; the buffers returned
    are new ones (locations the store did not have, distinct from each other)
    of the shapes of the inputs; and the call does return whenever the fit,
    if called, gives back sequences of the length of the trajectory. *)
Theorem perturb_preserves_inputs_and_returns_fresh_buffers (h f : list frame) :
  nth_error s history_frames = Some h ->
  nth_error s future_frames = Some f ->
  let r := perturb self s g history_frames future_frames in
  nth_error (out_store r) history_frames = Some h /\
  nth_error (out_store r) future_frames = Some f /\
  (forall nh nf, out_result r = Some (nh, nf) ->
     length s <= nh /\ length s <= nf /\ nh <> nf /\
     nh <> history_frames /\ nh <> future_frames /\
     nf <> history_frames /\ nf <> future_frames /\
     exists h' f', nth_error (out_store r) nh = Some h' /\
                   nth_error (out_store r) nf = Some f' /\
                   length h' = length h /\ length f' = length f) /\
  ((forall a, out_fit_args r = Some a -> fit_returns_length (length h + length f) a) ->
   exists nh nf, out_result r = Some (nh, nf)).
Proof.
  intros Hh Hf r.
  assert (history_frames < length s) by (apply nth_error_Some; congruence).
  assert (future_frames < length s) by (apply nth_error_Some; congruence).
  split; [now apply perturb_store_preserved|].
  split; [now apply perturb_store_preserved|].
  split.
  - intros nh nf Hres.
    destruct (perturb_result_fresh h f nh nf Hh Hf Hres) as (-> & -> & Hbuf).
    repeat (split; [lia|]). exact Hbuf.
  - intros Hfit. eexists _, _. apply (perturb_returns h f Hh Hf Hfit).
Qed.

End Frame.

(** ** What the fit receives *)

Section FitInputs.

Context {F Rot Other Rng : Type} `{Scalar F} `{Collaborators F Rot Rng}.

Local Abbreviation frame := (Frame F Rot Other).
Local Abbreviation pose := (Pose F).

Lemma fit_arguments_fields (t : list pose) (n total : nat) (a : FitArgs F) :
  fit_arguments t n total = Some a ->
  gx a = map (@px F) t /\ gy a = map (@py F) t /\ gr a = map (@pyaw F) t /\
  _compute_speeds_from_positions (map pose_xy t) = Some (gv a) /\
  py_set (repeat fone total) (Z.of_nat n - 1) ffive = Some (wgx a) /\
  py_set (repeat fone total) (Z.of_nat n - 1) ffive = Some (wgy a) /\
  wgr a = repeat fzero total /\ wgv a = repeat fzero total.
Proof.
  unfold fit_arguments.
  destruct (_compute_speeds_from_positions _) as [speeds|]; [|discriminate].
  destruct t as [|p0 t]; [discriminate|].
  destruct speeds as [|v speeds]; [discriminate|].
  destruct (py_set _ _ _) as [w|]; [|discriminate].
  intros [= <-]. cbn. repeat split; reflexivity.
Qed.

Lemma nth_error_weights (total k j : nat) :
  k < total -> j < total ->
  nth_error (list_set (repeat fone total) k ffive) j =
    Some (if Nat.eqb j k then ffive else fone).
Proof.
  intros Hk Hj. destruct (Nat.eqb_spec j k) as [->|Hne].
  - apply nth_error_list_set_eq. now rewrite repeat_length.
  - rewrite nth_error_list_set_ne by congruence.
    now apply nth_error_repeat.
Qed.

(** C10: with no future frames and at least two history frames, on the
    perturbation path, the offset computed at the anchor index [H - 1] is the
    zero vector (the anchor is the last row of the joined trajectory), and
    the targets handed to the fit are the rows of the joined trajectory
    except at the anchor, whose position has that zero added in place and
    whose yaw has the sampled yaw offset added: the sampled lateral and
    longitudinal offsets do not reach the fit. *)
Theorem anchor_offset_is_zero_without_future (self : AckermanPerturbation F Rng)
        (s : list (list frame)) (g g1 g2 : Rng) (history_frames future_frames : nat)
        (h f : list frame) (u lat lon yaw : F) :
  nth_error s history_frames = Some h ->
  nth_error s future_frames = Some f ->
  np_random_rand g = (u, g1) ->
  fgeb u (perturb_prob self) = false ->
  random_offset_generator self g1 = (lat, lon, yaw, g2) ->
  fltb (fabs lat) NUMERICAL_THRESHOLD = false ->
  length f = 0 ->
  2 <= length h ->
  let reference_traj_sample := _get_history_and_future_frames_as_joint_trajectory h f in
  get_offset_at_idx (map pose_row reference_traj_sample)
    (Z.of_nat (length h) - 1) lat lon = Some (fzero, fzero) /\
  exists a,
    out_fit_args (perturb self s g history_frames future_frames) = Some a /\
    forall k p, nth_error reference_traj_sample k = Some p ->
      nth_error (gx a) k =
        Some (if Nat.eqb k (length h - 1) then to_float32 (fadd (px p) fzero) else px p) /\
      nth_error (gy a) k =
        Some (if Nat.eqb k (length h - 1) then to_float32 (fadd (py p) fzero) else py p) /\
      nth_error (gr a) k =
        Some (if Nat.eqb k (length h - 1) then to_float32 (fadd (pyaw p) yaw) else pyaw p).
Proof.
  intros Hh Hf Hu Hgate Hoff Hlat Hfut Hhist ref.
  assert (Href : length ref = length h + length f) by apply length_joint_trajectory.
  assert (Hzero : get_offset_at_idx (map pose_row ref) (Z.of_nat (length h) - 1) lat lon
                  = Some (fzero, fzero)).
  { unfold get_offset_at_idx. rewrite length_map, Href.
    destruct (Z.leb_spec (Z.of_nat (length h + length f)) (Z.of_nat (length h) - 1 + 1));
      [reflexivity|lia]. }
  split; [exact Hzero|].
  destruct (perturb_reaches_fit self s g _ _ h f g1 g2 u lat lon yaw
              Hh Hf Hu Hgate Hoff Hlat ltac:(lia))
    as (o & t & a & Ho & Ht & Ha & Hargs & _).
  fold ref in Ho, Ht. rewrite Hzero in Ho. injection Ho as <-.
  exists a. split; [exact Hargs|].
  apply fit_arguments_fields in Ha. destruct Ha as (-> & -> & -> & _).
  unfold apply_offset in Ht.
  rewrite py_get_nonneg in Ht by lia. unfold py_set in Ht.
  rewrite py_index_nonneg in Ht by lia.
  replace (Z.to_nat (Z.of_nat (length h) - 1)) with (length h - 1) in Ht by lia.
  destruct (nth_error ref (length h - 1)) as [anchor|] eqn:Hanchor; [|discriminate].
  injection Ht as <-. cbn [fst snd].
  intros k p Hk. rewrite !list_set_map.
  destruct (Nat.eqb_spec k (length h - 1)) as [->|Hne].
  - rewrite !nth_error_list_set_eq by (rewrite length_map; lia).
    assert (p = anchor) by congruence. subst p. cbn. auto.
  - rewrite !nth_error_list_set_ne by congruence.
    rewrite !nth_error_map, Hk. cbn. auto.
Qed.

End FitInputs.

(** ** The offset at an index *)

Section OffsetFacts.

Context {F : Type} `{Scalar F}.

Lemma next_frame_exists (trajectory : list (list F)) (i : Z) (q : list F) :
  py_get trajectory (i + 1) = Some q ->
  (Z.of_nat (length trajectory) <=? i + 1)%Z = false.
Proof.
  intros Hq. apply py_get_some_range in Hq. apply Z.leb_gt. lia.
Qed.

Lemma get_offset_at_idx_step (trajectory : list (list F)) (i : Z) (lat lon : F)
      (p q : list F) :
  py_get trajectory i = Some p ->
  py_get trajectory (i + 1) = Some q ->
  fltb (norm (vsub q p)) f_1e_5 = false ->
  get_offset_at_idx trajectory i lat lon = offset_along lat lon (normalized (vsub q p)).
Proof.
  intros Hp Hq Hfar. unfold get_offset_at_idx, direction_at.
  rewrite (next_frame_exists _ _ _ Hq), Hp, Hq. cbv zeta. now rewrite Hfar.
Qed.

End OffsetFacts.

(** ** Speeds from positions *)

Lemma nth_error_removelast_front {A : Type} (l : list A) (k : nat) :
  S k < length l -> nth_error (removelast l) k = nth_error l k.
Proof.
  revert k. induction l as [|x [|y r] IH]; intros k Hk; simpl in *; try lia.
  destruct k as [|k]; [reflexivity|]. simpl. apply IH. lia.
Qed.

Lemma nth_error_tail {A : Type} (l : list A) (k : nat) :
  nth_error (tl l) k = nth_error l (S k).
Proof. destruct l; [now destruct k|reflexivity]. Qed.

Section SpeedFacts.

Context {F : Type} `{Scalar F}.

Lemma nth_error_steps (traj : list (F * F)) (k : nat) (p q : F * F) :
  nth_error traj k = Some p -> nth_error traj (S k) = Some q ->
  nth_error (map2 step_length (removelast traj) (tl traj)) k = Some (step_length p q).
Proof.
  intros Hp Hq.
  assert (S k < length traj) by (apply nth_error_Some; congruence).
  apply nth_error_map2.
  - now rewrite nth_error_removelast_front.
  - now rewrite nth_error_tail.
Qed.

Lemma compute_speeds_spec (traj : list (F * F)) :
  2 <= length traj ->
  exists speeds,
    _compute_speeds_from_positions traj = Some speeds /\
    length speeds = length traj /\
    (forall k p q, nth_error traj k = Some p -> nth_error traj (S k) = Some q ->
                   nth_error speeds k = Some (step_length p q)) /\
    nth_error speeds (length traj - 1) = nth_error speeds (length traj - 2).
Proof.
  intros Hlen. unfold _compute_speeds_from_positions.
  destruct (length_speeds_before_copy traj) as [Hsteps Hs]. cbv zeta in Hsteps, Hs.
  set (steps := map2 step_length (removelast traj) (tl traj)) in *.
  set (speeds := steps ++ _) in *.
  destruct (py_get_is_some speeds (-2)) as (v & Hv); [lia|].
  rewrite Hv. unfold py_set. rewrite py_index_negative by lia.
  unfold py_get in Hv. rewrite py_index_negative in Hv by lia.
  rewrite Hs in *.
  replace (Z.to_nat (Z.of_nat (length traj) + -1)) with (length traj - 1) by lia.
  replace (Z.to_nat (Z.of_nat (length traj) + -2)) with (length traj - 2) in Hv by lia.
  eexists; split; [reflexivity|].
  split; [now rewrite length_list_set|].
  split.
  - intros k p q Hp Hq.
    assert (S k < length traj) by (apply nth_error_Some; congruence).
    rewrite nth_error_list_set_ne by lia.
    unfold speeds. rewrite nth_error_app1 by lia.
    now apply nth_error_steps.
  - rewrite nth_error_list_set_eq by lia.
    rewrite nth_error_list_set_ne by lia. now rewrite Hv.
Qed.

End SpeedFacts.

(** C7: for [N >= 2] positions [_compute_speeds_from_positions] returns [N]
    speeds, the [k]-th being the Euclidean distance from position [k] to
    position [k+1] for [k < N-1] and the last repeating the one before it;
    positions [(0,0)], [(3,4)], [(3,4)] give speeds [5], [0], [0]. *)
Theorem compute_speeds_are_step_lengths :
  (forall (F : Type) (S : Scalar F) (trajectory : list (F * F)),
     2 <= length trajectory ->
     exists speeds,
       _compute_speeds_from_positions trajectory = Some speeds /\
       length speeds = length trajectory /\
       (forall k p q,
          nth_error trajectory k = Some p -> nth_error trajectory (k + 1) = Some q ->
          nth_error speeds k =
            Some (fsqrt (fadd (fmul (fsub (snd q) (snd p)) (fsub (snd q) (snd p)))
                              (fmul (fsub (fst q) (fst p)) (fsub (fst q) (fst p)))))) /\
       nth_error speeds (length trajectory - 1) =
         nth_error speeds (length trajectory - 2)) /\
  (forall p q : R * R,
     step_length (H := ExactReal.scalar) p q =
       R_sqrt.sqrt ((fst q - fst p) ^ 2 + (snd q - snd p) ^ 2)%R) /\
  _compute_speeds_from_positions (H := Float64.scalar)
    [(0, 0); (3, 4); (3, 4)]%float = Some [5; 0; 0]%float.
Proof.
  split; [|split].
  - intros F S trajectory Hlen.
    destruct (compute_speeds_spec trajectory Hlen) as (speeds & Hs & Hl & Hk & Hlast).
    exists speeds. repeat split; auto.
    intros k p q Hp Hq. rewrite Nat.add_1_r in Hq. apply (Hk k p q Hp Hq).
  - intros p q. unfold step_length. cbn. f_equal. ring.
  - reflexivity.
Qed.

(** ** Joining and splitting *)

Lemma map2_map_map {A B C D : Type} (upd : B -> C -> D) (g : A -> B) (k : A -> C)
      (l : list A) :
  map2 upd (map g l) (map k l) = map (fun a => upd (g a) (k a)) l.
Proof. induction l as [|x r IH]; simpl; congruence. Qed.

Lemma rev_map_rev {A B : Type} (g : A -> B) (l : list A) :
  rev (map g (rev l)) = map g l.
Proof. now rewrite map_rev, rev_involutive. Qed.

Section RoundTrip.

Context {F Rot Other Rng : Type} `{Scalar F} `{Collaborators F Rot Rng}.

Local Abbreviation frame := (Frame F Rot Other).

Lemma restored_frame_fixed (fr : frame) :
  survives_joint_storage fr -> restored_frame fr = fr.
Proof.
  destruct fr as [[x y rest] rot other]. unfold survives_joint_storage.
  cbn. intros (Hx & Hy & Hrot).
  unfold restored_frame, set_rotation, set_xy, frame_pose. cbn.
  now rewrite Hx, Hy, Hrot.
Qed.

(** Splitting the joined trajectory of [h] and [f] into copies of [h] and
    [f] stores each frame as [restored_frame] leaves it. *)
Lemma split_joint_of_joint (h f : list frame) :
  1 <= length h + length f ->
  split_joint_trajectory h f (_get_history_and_future_frames_as_joint_trajectory h f) =
    Some (map restored_frame h, map restored_frame f).
Proof.
  intros Hlen. unfold split_joint_trajectory.
  pose proof (length_joint_trajectory h f) as Hjoint.
  destruct (_get_history_and_future_frames_as_joint_trajectory h f) as [|p0 rest] eqn:E;
    [simpl in Hjoint; lia|].
  rewrite <- E. clear E Hjoint p0 rest.
  unfold _get_history_and_future_frames_as_joint_trajectory.
  assert (Hh : length (map frame_pose (rev h)) = length h)
    by now rewrite length_map, length_rev.
  rewrite map_app.
  rewrite !firstn_app, !skipn_app, !length_map, !length_rev, Nat.sub_diag.
  rewrite !firstn_O, !skipn_O, !app_nil_r.
  rewrite !firstn_all2 by (rewrite ?length_map, length_rev; lia).
  rewrite !skipn_all2 by (rewrite ?length_map, length_rev; lia).
  cbn [app].
  unfold np_assign_rev.
  rewrite np_assign_same_length by (now rewrite !length_map).
  rewrite map2_map_r. cbn [option_map].
  rewrite rev_involutive.
  rewrite np_assign_same_length by (now rewrite !length_map).
  rewrite map_map, map2_map_map. cbn [option_map].
  rewrite rev_map_rev.
  rewrite np_assign_same_length by (now rewrite length_map).
  rewrite map2_map_r.
  rewrite np_assign_same_length by (now rewrite !length_map).
  rewrite map_map, map2_map_map.
  reflexivity.
Qed.

(** C8, amended: joining a history buffer and a future buffer (at least one
    frame in all) and splitting the joined sequence back reproduces both
    buffers, provided every frame survives the joined storage: its planar
    coordinates are unchanged by the conversion to [float32], and the
    rotation rebuilt from its stored yaw is its rotation. *)
Theorem join_then_split_reproduces_frames (h f : list frame) :
  1 <= length h + length f ->
  Forall survives_joint_storage h ->
  Forall survives_joint_storage f ->
  split_joint_trajectory h f (_get_history_and_future_frames_as_joint_trajectory h f) =
    Some (h, f).
Proof.
  intros Hlen Hh Hf. rewrite (split_joint_of_joint h f Hlen).
  rewrite !map_fixpoint; [reflexivity| |].
  - eapply Forall_impl; [|exact Hf]. apply restored_frame_fixed.
  - eapply Forall_impl; [|exact Hh]. apply restored_frame_fixed.
Qed.

End RoundTrip.

(** * Counterexamples and instances of the theorems *)

Section Instances.

Import Float64 Stub.

Local Open Scope float_scope.

(** C8 as stated fails: a history frame with [x] the binary64 nearest to
    [0.1] comes back from the joined [float32] trajectory with
    [x = 0.10000000149011612]. *)
Lemma join_then_split_counterexample :
  split_joint_trajectory history_tenth future1
    (_get_history_and_future_frames_as_joint_trajectory history_tenth future1)
  <> Some (history_tenth, future1).
Proof.
  intros E.
  apply (f_equal (fun o => match o with
                           | Some (fr :: _, _) =>
                               PrimFloat.eqb (tx (ego_translation fr))
                                             0x1.999999999999ap-4
                           | _ => true
                           end)) in E.
  vm_compute in E. discriminate E.
Qed.

(** An instance of C1: the sampler returns a lateral offset of [0]. *)
Lemma perturb_low_lateral_witness :
  let self := fixed_offset 1 0 3 0.5 in
  let s := [history2; future2] in
  fgeb 0 (perturb_prob self) = false /\
  fltb (fabs 0) NUMERICAL_THRESHOLD = true /\
  returned_copies s 0 1 history2 future2 (perturb self s [0] 0 1) /\
  out_warnings (perturb self s [0] 0 1) = [low_lateral_warning] /\
  out_fit_args (perturb self s [0] 0 1) = None.
Proof.
  cbv zeta. split; [reflexivity|]. split; [reflexivity|].
  eapply perturb_low_lateral_returns_copies; reflexivity.
Defined.

(** An instance of C2: one history frame and no future frame. *)
Lemma perturb_short_trajectory_witness :
  let self := fixed_offset 1 1 0 0.25 in
  let h := [frame_at 0 1 0 0] in
  let s := [h; []] in
  length h + length (@nil (Frame float float unit)) < 2 /\
  returned_copies s 0 1 h [] (perturb self s [0] 0 1) /\
  out_fit_args (perturb self s [0] 0 1) = None.
Proof.
  cbv zeta. split; [cbn; lia|].
  apply perturb_short_trajectory_returns_copies; [reflexivity|reflexivity|cbn; lia].
Defined.

(** An instance of C3: the draw [0.75] against [perturb_prob = 0.5]. *)
Lemma perturb_gate_closed_witness :
  let self := fixed_offset 0.5 1 0 0.25 in
  let s := [history2; future2] in
  fgeb 0.75 (perturb_prob self) = true /\
  exists new_history_frames new_future_frames,
    let r := perturb self s [0.75] 0 1 in
    out_result r = Some (new_history_frames, new_future_frames) /\
    nth_error (out_store r) new_history_frames = Some history2 /\
    nth_error (out_store r) new_future_frames = Some future2 /\
    new_history_frames <> 0%nat /\ new_history_frames <> 1%nat /\
    new_future_frames <> 0%nat /\ new_future_frames <> 1%nat /\
    new_history_frames <> new_future_frames /\
    forall v w : list (Frame float float unit),
      let s' := list_set (list_set (out_store r) new_history_frames v)
                         new_future_frames w in
      nth_error s' 0 = Some history2 /\ nth_error s' 1 = Some future2.
Proof.
  cbv zeta. split; [reflexivity|].
  eapply (perturb_gate_closed_returns_independent_copies
            (fixed_offset 0.5 1 0 0.25) [history2; future2] 0 1 history2 future2);
    reflexivity.
Defined.

(** An instance of C4 on the perturbation path, with the fit that returns
    its targets. *)
Lemma perturb_preserves_inputs_witness :
  let self := fixed_offset 1 1 0 0.25 in
  let s := [history2; future2] in
  let r := perturb self s [0] 0 1 in
  nth_error (out_store r) 0 = Some history2 /\
  nth_error (out_store r) 1 = Some future2 /\
  (forall nh nf, out_result r = Some (nh, nf) ->
     length s <= nh /\ length s <= nf /\ nh <> nf /\
     nh <> 0%nat /\ nh <> 1%nat /\ nf <> 0%nat /\ nf <> 1%nat /\
     exists h' f', nth_error (out_store r) nh = Some h' /\
                   nth_error (out_store r) nf = Some f' /\
                   length h' = length history2 /\ length f' = length future2) /\
  ((forall a, out_fit_args r = Some a ->
              fit_returns_length (length history2 + length future2) a) ->
   exists nh nf, out_result r = Some (nh, nf)).
Proof.
  exact (perturb_preserves_inputs_and_returns_fresh_buffers
           (fixed_offset 1 1 0 0.25) [history2; future2] [0] 0 1 history2 future2
           eq_refl eq_refl).
Defined.

(** An instance of C7: three positions. *)
Lemma compute_speeds_witness :
  2 <= length [(0, 0); (3, 4); (3, 4)] /\
  exists speeds,
    _compute_speeds_from_positions [(0, 0); (3, 4); (3, 4)] = Some speeds /\
    length speeds = 3%nat /\
    (forall k p q,
       nth_error [(0, 0); (3, 4); (3, 4)] k = Some p ->
       nth_error [(0, 0); (3, 4); (3, 4)] (k + 1) = Some q ->
       nth_error speeds k =
         Some (fsqrt (fadd (fmul (fsub (snd q) (snd p)) (fsub (snd q) (snd p)))
                           (fmul (fsub (fst q) (fst p)) (fsub (fst q) (fst p)))))) /\
    nth_error speeds 2 = nth_error speeds 1.
Proof.
  split; [cbn; lia|].
  exact (proj1 compute_speeds_are_step_lengths float Float64.scalar
           [(0, 0); (3, 4); (3, 4)] (le_S 2 2 (le_n 2))).
Defined.

(** An instance of the amended C8: coordinates that [float32] holds. *)
Lemma join_then_split_witness :
  Forall survives_joint_storage history2 /\
  Forall survives_joint_storage future2 /\
  split_joint_trajectory history2 future2
    (_get_history_and_future_frames_as_joint_trajectory history2 future2) =
    Some (history2, future2).
Proof.
  assert (Hh : Forall survives_joint_storage history2)
    by (repeat constructor; reflexivity).
  assert (Hf : Forall survives_joint_storage future2)
    by (repeat constructor; reflexivity).
  split; [exact Hh|]. split; [exact Hf|].
  apply join_then_split_reproduces_frames; [cbn; lia|exact Hh|exact Hf].
Defined.

(** An instance of C10: two history frames and an empty future. *)
Lemma anchor_offset_witness :
  let self := fixed_offset 1 1 0 0.25 in
  let f : list (Frame float float unit) := [] in
  let s := [history2; f] in
  let reference_traj_sample :=
    _get_history_and_future_frames_as_joint_trajectory history2 f in
  fltb (fabs 1) NUMERICAL_THRESHOLD = false /\
  get_offset_at_idx (map pose_row reference_traj_sample) 1 1 0 = Some (0, 0) /\
  exists a,
    out_fit_args (perturb self s [0] 0 1) = Some a /\
    forall k p, nth_error reference_traj_sample k = Some p ->
      nth_error (gx a) k =
        Some (if Nat.eqb k 1 then to_float32 (fadd (px p) fzero) else px p) /\
      nth_error (gy a) k =
        Some (if Nat.eqb k 1 then to_float32 (fadd (py p) fzero) else py p) /\
      nth_error (gr a) k =
        Some (if Nat.eqb k 1 then to_float32 (fadd (pyaw p) 0.25) else pyaw p).
Proof.
  cbv zeta. split; [reflexivity|].
  exact (anchor_offset_is_zero_without_future (fixed_offset 1 1 0 0.25)
           [history2; []] [0] [] [] 0 1 history2 [] 0 1 0 0.25
           eq_refl eq_refl eq_refl eq_refl eq_refl eq_refl eq_refl
           (le_n 2)).
Defined.

End Instances.

(** * Further properties of the module *)

(** ** Errors of the two helpers *)

Section HelperErrors.

Context {F : Type} `{Scalar F}.

(** X1: [_compute_speeds_from_positions] raises ([speeds[-2]] is out of
    range) exactly when it is given fewer than two positions. *)
Theorem compute_speeds_raises_iff_short (trajectory : list (F * F)) :
  _compute_speeds_from_positions trajectory = None <-> length trajectory < 2.
Proof.
  split.
  - intros Hnone. destruct (Nat.lt_ge_cases (length trajectory) 2) as [|Hlong]; [assumption|].
    destruct (compute_speeds_defined trajectory Hlong) as (speeds & Hs & _).
    congruence.
  - intros Hshort. destruct trajectory as [|p [|q r]]; [reflexivity|reflexivity|].
    simpl in Hshort. lia.
Qed.



End HelperErrors.

(** ** The size of the offset, in exact arithmetic *)

Section RealGeometry.

Import ExactReal.

Local Open Scope R_scope.

Lemma real_unit_components (a b n lat lon : R) :
  n <> 0 -> n * n = a * a + b * b ->
  let ox := lat * (b / n) + lon * (a / n) in
  let oy := lat * (- (a / n)) + lon * (b / n) in
  ox * (a / n) + oy * (b / n) = lon /\
  ox * (b / n) - oy * (a / n) = lat /\
  ox * ox + oy * oy = lat * lat + lon * lon.
Proof.
  intros Hn Hn2 ox oy. subst ox oy.
  assert (Hu : (a / n) * (a / n) + (b / n) * (b / n) = 1).
  { field_simplify_eq; [|assumption]. lra. }
  set (dx := a / n) in *. set (dy := b / n) in *.
  split; [|split].
  - replace (_ + _) with (lon * (dx * dx + dy * dy)) by ring. rewrite Hu. ring.
  - replace (_ - _) with (lat * (dx * dx + dy * dy)) by ring. rewrite Hu. ring.
  - replace ((lat * dy + lon * dx) * (lat * dy + lon * dx) +
             (lat * - dx + lon * dy) * (lat * - dx + lon * dy))
      with ((lat * lat + lon * lon) * (dx * dx + dy * dy)) by ring.
    rewrite Hu. ring.
Qed.

Lemma real_scaled_components (a b c n lat lon : R) :
  n <> 0 -> n * n = a * a + b * b + c * c ->
  let ox := lat * (b / n) + lon * (a / n) in
  let oy := lat * (- (a / n)) + lon * (b / n) in
  (ox * ox + oy * oy) * (a * a + b * b + c * c) =
  (lat * lat + lon * lon) * (a * a + b * b).
Proof.
  intros Hn Hn2 ox oy. subst ox oy. rewrite <- Hn2. field. assumption.
Qed.

Lemma real_square_nonneg (r : R) : 0 <= r * r.
Proof. nra. Qed.

Lemma real_far_sqrt (x : R) :
  0 <= x -> Rltb (R_sqrt.sqrt x) (1 / 100000) = false ->
  R_sqrt.sqrt x <> 0 /\ R_sqrt.sqrt x * R_sqrt.sqrt x = x.
Proof.
  intros Hx Hfar. unfold Rltb in Hfar.
  destruct (Rlt_dec (R_sqrt.sqrt x) (1 / 100000)) as [|Hge]; [discriminate|].
  split; [lra|]. now apply sqrt_sqrt.
Qed.

(** X3: in exact arithmetic and on two-column positions, wherever the step
    to the next point is not shorter than [1e-5] the offset returned by
    [get_offset_at_idx] has exactly the requested components: [lon] along
    the unit direction of travel, [lat] along its clockwise normal, hence
    squared length [lat^2 + lon^2]. *)
Theorem real_offset_has_requested_components
        (trajectory : list (list R)) (i : Z) (lat lon px0 py0 qx qy : R) :
  py_get trajectory i = Some [px0; py0] ->
  py_get trajectory (i + 1) = Some [qx; qy] ->
  fltb (norm (vsub [qx; qy] [px0; py0])) f_1e_5 = false ->
  let n := R_sqrt.sqrt ((qx - px0) * (qx - px0) + (qy - py0) * (qy - py0)) in
  let dx := (qx - px0) / n in
  let dy := (qy - py0) / n in
  exists ox oy,
    get_offset_at_idx trajectory i lat lon = Some (ox, oy) /\
    ox * dx + oy * dy = lon /\
    ox * dy - oy * dx = lat /\
    ox * ox + oy * oy = lat * lat + lon * lon.
Proof.
  intros Hp Hq Hfar n dx dy.
  rewrite (get_offset_at_idx_step _ _ lat lon _ _ Hp Hq Hfar).
  cbn in Hfar |- *.
  replace (0 + (qx - px0) * (qx - px0) + (qy - py0) * (qy - py0))
    with ((qx - px0) * (qx - px0) + (qy - py0) * (qy - py0)) in * by ring.
  fold n in Hfar |- *.
  assert (Hpos : 0 <= (qx - px0) * (qx - px0) + (qy - py0) * (qy - py0)).
  { pose proof (real_square_nonneg (qx - px0)).
    pose proof (real_square_nonneg (qy - py0)). lra. }
  destruct (real_far_sqrt _ Hpos Hfar) as [Hn Hn2]. fold n in Hn, Hn2.
  eexists _, _. split; [reflexivity|].
  apply (real_unit_components _ _ n lat lon Hn Hn2).
Qed.

(** X4: on the three-column rows [(x, y, yaw)] that [perturb] passes, the
    step is normalised by a norm that includes the yaw difference, so in
    exact arithmetic the squared length of the offset is
    [lat^2 + lon^2] scaled by [(dx^2 + dy^2) / (dx^2 + dy^2 + dyaw^2)]:
    shorter than requested whenever the yaw changes between the two rows. *)
Theorem real_offset_scaled_by_yaw_step
        (trajectory : list (Pose R)) (i : Z) (lat lon : R) (p q : Pose R) :
  py_get (map pose_row trajectory) i = Some (pose_row p) ->
  py_get (map pose_row trajectory) (i + 1) = Some (pose_row q) ->
  fltb (norm (vsub (pose_row q) (pose_row p))) f_1e_5 = false ->
  let dx := px q - px p in
  let dy := py q - py p in
  let dyaw := pyaw q - pyaw p in
  exists ox oy,
    get_offset_at_idx (map pose_row trajectory) i lat lon = Some (ox, oy) /\
    (ox * ox + oy * oy) * (dx * dx + dy * dy + dyaw * dyaw) =
    (lat * lat + lon * lon) * (dx * dx + dy * dy).
Proof.
  intros Hp Hq Hfar dx dy dyaw.
  rewrite (get_offset_at_idx_step _ _ lat lon _ _ Hp Hq Hfar).
  cbn in Hfar |- *. fold dx dy dyaw in Hfar |- *.
  replace (0 + dx * dx + dy * dy + dyaw * dyaw)
    with (dx * dx + dy * dy + dyaw * dyaw) in * by ring.
  assert (Hpos : 0 <= dx * dx + dy * dy + dyaw * dyaw).
  { pose proof (real_square_nonneg dx). pose proof (real_square_nonneg dy).
    pose proof (real_square_nonneg dyaw). lra. }
  destruct (real_far_sqrt _ Hpos Hfar) as [Hn Hn2].
  eexists _, _. split; [reflexivity|].
  apply (real_scaled_components dx dy dyaw _ lat lon Hn Hn2).
Qed.

End RealGeometry.

(** ** The layout of the joined trajectory and of what is written back *)

Lemma nth_error_rev_slot {A : Type} (l : list A) (k : nat) (x : A) :
  nth_error l k = Some x -> nth_error (rev l) (length l - 1 - k) = Some x.
Proof.
  intros Hk. assert (k < length l) by (apply nth_error_Some; congruence).
  rewrite nth_error_rev.
  destruct (Nat.ltb_spec (length l - 1 - k) (length l)); [|lia].
  replace (length l - S (length l - 1 - k)) with k by lia. exact Hk.
Qed.

Lemma Forall2_refl_on {A : Type} (R : A -> A -> Prop) (l : list A) :
  (forall a, R a a) -> Forall2 R l l.
Proof. intros Hr. induction l; constructor; auto. Qed.

Lemma Forall2_trans_on {A : Type} (R : A -> A -> Prop) (l1 l2 l3 : list A) :
  (forall a b c, R a b -> R b c -> R a c) ->
  Forall2 R l1 l2 -> Forall2 R l2 l3 -> Forall2 R l1 l3.
Proof.
  intros Ht H12. revert l3. induction H12; intros l3 H23; inversion H23; subst;
    constructor; eauto.
Qed.

Lemma Forall2_rev_both {A : Type} (R : A -> A -> Prop) (l1 l2 : list A) :
  Forall2 R l1 l2 -> Forall2 R (rev l1) (rev l2).
Proof.
  induction 1; simpl; [constructor|].
  apply Forall2_app; [assumption|]. repeat constructor. assumption.
Qed.

Lemma np_assign_related {A B : Type} (R : A -> A -> Prop) (upd : A -> B -> A)
      (dst : list A) (src : list B) (res : list A) :
  (forall d b, R d (upd d b)) ->
  np_assign upd dst src = Some res -> Forall2 R dst res.
Proof.
  intros Hupd. unfold np_assign.
  destruct (Nat.eqb_spec (length src) (length dst)) as [Hlen|_].
  - intros [= <-]. revert src Hlen.
    induction dst as [|d dst IH]; intros [|b src] Hlen; simpl in *;
      try discriminate; constructor; auto.
  - destruct src as [|b [|? ?]]; try discriminate. intros [= <-].
    induction dst; simpl; constructor; auto.
Qed.

Lemma np_assign_rev_related {A B : Type} (R : A -> A -> Prop) (upd : A -> B -> A)
      (dst : list A) (src : list B) (res : list A) :
  (forall d b, R d (upd d b)) ->
  np_assign_rev upd dst src = Some res -> Forall2 R dst res.
Proof.
  intros Hupd. unfold np_assign_rev.
  destruct (np_assign upd (rev dst) src) as [l|] eqn:E; [|discriminate].
  intros [= <-]. apply (np_assign_related R) in E; [|assumption].
  apply Forall2_rev_both in E. now rewrite rev_involutive in E.
Qed.

Lemma map2_written_back {A B C : Type} (f1 : A -> B -> A) (f2 : A -> C -> A)
      (g : B -> C) (l : list A) (t : list B) :
  map2 f2 (map2 f1 l t) (map g t) = map2 (fun a b => f2 (f1 a b) (g b)) l t.
Proof.
  revert t. induction l as [|a l IH]; intros [|b t]; simpl; auto.
  now rewrite IH.
Qed.

Section Layout.

Context {F Rot Other Rng : Type} `{Scalar F} `{Collaborators F Rot Rng}.

Local Abbreviation frame := (Frame F Rot Other).
Local Abbreviation pose := (Pose F).

Lemma joint_trajectory_rows (history_frames future_frames : list frame) :
  (forall k fr, nth_error history_frames k = Some fr ->
     nth_error (_get_history_and_future_frames_as_joint_trajectory
                  history_frames future_frames)
               (length history_frames - 1 - k) = Some (frame_pose fr)) /\
  (forall j fr, nth_error future_frames j = Some fr ->
     nth_error (_get_history_and_future_frames_as_joint_trajectory
                  history_frames future_frames)
               (length history_frames + j) = Some (frame_pose fr)).
Proof.
  unfold _get_history_and_future_frames_as_joint_trajectory. split.
  - intros k fr Hk.
    assert (k < length history_frames) by (apply nth_error_Some; congruence).
    rewrite nth_error_app1 by (rewrite length_map, length_rev; lia).
    rewrite nth_error_map, (nth_error_rev_slot _ _ _ Hk). reflexivity.
  - intros j fr Hj.
    rewrite nth_error_app2 by (rewrite length_map, length_rev; lia).
    rewrite length_map, length_rev.
    replace (length history_frames + j - length history_frames) with j by lia.
    now rewrite nth_error_map, Hj.
Qed.

(** X5: the joined trajectory is chronological: it has [H + F] rows, history
    frame [k] (newest first) sits in row [H - 1 - k], so that the newest
    history frame is row [H - 1], and future frame [j] sits in row [H + j];
    each row holds the frame's [x], [y] and yaw as [float32]. *)
Theorem joint_trajectory_layout (history_frames future_frames : list frame) :
  let joint :=
    _get_history_and_future_frames_as_joint_trajectory history_frames future_frames in
  length joint = length history_frames + length future_frames /\
  (forall k fr, nth_error history_frames k = Some fr ->
     nth_error joint (length history_frames - 1 - k) = Some (frame_pose fr)) /\
  (forall j fr, nth_error future_frames j = Some fr ->
     nth_error joint (length history_frames + j) = Some (frame_pose fr)).
Proof.
  cbv zeta. split; [apply length_joint_trajectory|].
  apply joint_trajectory_rows.
Qed.

Lemma same_untouched_fields_refl (a : frame) : same_untouched_fields a a.
Proof. split; reflexivity. Qed.

Lemma same_untouched_fields_trans (a b c : frame) :
  same_untouched_fields a b -> same_untouched_fields b c -> same_untouched_fields a c.
Proof. intros [? ?] [? ?]. split; congruence. Qed.

Lemma split_keeps_untouched_fields (h f h' f' : list frame) (traj : list pose) :
  split_joint_trajectory h f traj = Some (h', f') ->
  Forall2 same_untouched_fields h h' /\ Forall2 same_untouched_fields f f'.
Proof.
  unfold split_joint_trajectory. destruct traj as [|p traj]; [discriminate|].
  destruct (np_assign_rev set_xy h _) as [h1|] eqn:E1; [|discriminate].
  destruct (np_assign_rev set_rotation h1 _) as [h2|] eqn:E2; [|discriminate].
  destruct (np_assign set_xy f _) as [f1|] eqn:E3; [|discriminate].
  destruct (np_assign set_rotation f1 _) as [f2|] eqn:E4; [|discriminate].
  intros [= <- <-].
  apply (np_assign_rev_related same_untouched_fields) in E1, E2;
    try (intros; split; reflexivity).
  apply (np_assign_related same_untouched_fields) in E3, E4;
    try (intros; split; reflexivity).
  split; eapply Forall2_trans_on; eauto using same_untouched_fields_trans.
Qed.

Lemma split_joint_trajectory_closed_form (h f : list frame) (traj : list pose) :
  1 <= length traj -> length traj = length h + length f ->
  split_joint_trajectory h f traj =
    Some (rev (map2 written_back (rev h) (firstn (length h) traj)),
          map2 written_back f (skipn (length h) traj)).
Proof.
  intros Hne Hlen. unfold split_joint_trajectory.
  destruct traj as [|p rest]; [simpl in Hne; lia|].
  cbv beta iota zeta. remember (p :: rest) as t eqn:Et. clear Et p rest.
  unfold np_assign_rev.
  rewrite np_assign_same_length by (rewrite length_firstn, length_rev; lia).
  cbn [option_map]. rewrite rev_involutive.
  rewrite np_assign_same_length
    by (rewrite length_firstn, length_map, length_map2, length_firstn, length_rev; lia).
  cbn [option_map].
  rewrite np_assign_same_length by (rewrite length_skipn; lia).
  rewrite np_assign_same_length
    by (rewrite length_skipn, length_map, length_map2, length_skipn; lia).
  rewrite firstn_map, skipn_map, !map2_written_back. reflexivity.
Qed.

End Layout.

(** ** What [perturb] passes to the fit and what it writes back *)

Lemma py_index_anchor (n total : nat) :
  n <= total -> 1 <= total ->
  py_index total (Z.of_nat n - 1) = Some (anchor_slot n total).
Proof.
  intros Hn Htotal. unfold anchor_slot.
  destruct (Nat.eqb_spec n 0) as [->|Hpos].
  - rewrite py_index_negative by lia. f_equal. lia.
  - rewrite py_index_nonneg by lia. f_equal. lia.
Qed.

Section PerturbEffects.

Context {F Rot Other Rng : Type} `{Scalar F} `{Collaborators F Rot Rng}.

Local Abbreviation frame := (Frame F Rot Other).
Local Abbreviation pose := (Pose F).

Variable self : AckermanPerturbation F Rng.
Variable s : list (list frame).
Variable g : Rng.
Variables history_frames future_frames : nat.
Variables h f : list frame.
Hypothesis history_in_store : nth_error s history_frames = Some h.
Hypothesis future_in_store : nth_error s future_frames = Some f.

Local Abbreviation call := (perturb self s g history_frames future_frames).

Lemma perturb_result_cases (nh nf : nat) :
  out_result call = Some (nh, nf) ->
  exists h' f',
    nth_error (out_store call) nh = Some h' /\
    nth_error (out_store call) nf = Some f' /\
    ((h' = h /\ f' = f) \/
     exists traj, split_joint_trajectory h f traj = Some (h', f')).
Proof.
  unfold perturb. rewrite history_in_store, future_in_store.
  destruct_perturb; cbn [out_result out_store return_copies raised];
    try discriminate; intros [= <- <-].
  1-3: exists h, f; split; [apply store_lookup_first_copy|];
       split; [apply store_lookup_second_copy|]; left; split; reflexivity.
  match goal with
  | E : split_joint_trajectory _ _ _ = Some (?a, ?b) |- _ =>
      exists a, b; pose proof (split_joint_trajectory_length _ _ _ _ _ E) as [E1 E2]
  end.
  split; [|split; [|right; eauto]].
  - rewrite nth_error_list_set_ne by (rewrite length_app; simpl; lia).
    apply nth_error_list_set_eq. rewrite !length_app. simpl. lia.
  - apply nth_error_list_set_eq.
    rewrite length_list_set, !length_app. simpl. lia.
Qed.

(** X6: on every path on which [perturb] returns, the two returned buffers
    have, frame by frame, the remaining translation coordinates (the
    height) and all the other fields of the input frames: only [x], [y] and
    the rotation are ever written. *)
Theorem perturb_keeps_untouched_fields (nh nf : nat) :
  out_result call = Some (nh, nf) ->
  exists h' f',
    nth_error (out_store call) nh = Some h' /\
    nth_error (out_store call) nf = Some f' /\
    Forall2 same_untouched_fields h h' /\
    Forall2 same_untouched_fields f f'.
Proof.
  intros Hres.
  destruct (perturb_result_cases nh nf Hres) as (h' & f' & Hh' & Hf' & Hcase).
  exists h', f'. repeat (split; [assumption|]).
  destruct Hcase as [[-> ->]|[traj Hsplit]].
  - split; apply Forall2_refl_on, same_untouched_fields_refl.
  - eapply split_keeps_untouched_fields; eauto.
Qed.

Lemma apply_offset_length (ref t : list pose) (n : nat) (o : F * F) (yaw : F) :
  apply_offset ref n o yaw = Some t -> length t = length ref.
Proof.
  unfold apply_offset, py_set.
  destruct (py_get ref _); [|discriminate].
  destruct (py_index _ _); [|discriminate].
  intros [= <-]. apply length_list_set.
Qed.

Lemma perturb_fit_args_origin (a : FitArgs F) :
  out_fit_args call = Some a ->
  2 <= length h + length f /\
  exists lat lon yaw o t,
    get_offset_at_idx
      (map pose_row (_get_history_and_future_frames_as_joint_trajectory h f))
      (Z.of_nat (length h) - 1) lat lon = Some o /\
    apply_offset (_get_history_and_future_frames_as_joint_trajectory h f)
      (length h) o yaw = Some t /\
    fit_arguments t (length h) (length h + length f) = Some a.
Proof.
  unfold perturb. rewrite history_in_store, future_in_store.
  destruct_perturb; cbn [out_fit_args return_copies raised]; try discriminate;
    intros [= <-];
    (split; [match goal with
             | E : (_ <? 2) = false |- _ => apply Nat.ltb_ge in E; exact E
             end|]);
    do 5 eexists; repeat split; eassumption.
Qed.

Lemma fit_arguments_initial_state (t : list pose) (n total : nat) (a : FitArgs F) :
  fit_arguments t n total = Some a ->
  nth_error (gx a) 0 = Some (x0 a) /\ nth_error (gy a) 0 = Some (y0 a) /\
  nth_error (gr a) 0 = Some (r0 a) /\ nth_error (gv a) 0 = Some (v0 a).
Proof.
  unfold fit_arguments.
  destruct (_compute_speeds_from_positions _) as [speeds|]; [|discriminate].
  destruct t as [|p0 t]; [discriminate|].
  destruct speeds as [|v speeds]; [discriminate|].
  destruct (py_set _ _ _) as [w|]; [|discriminate].
  intros [= <-]. cbn. repeat split; reflexivity.
Qed.

(** X7: whenever [perturb] calls the fit, the four target arrays and the
    four weight arrays it passes all have [H + F] entries, and the initial
    state [(x0, y0, r0, v0)] is the first entry of the targets
    [(gx, gy, gr, gv)]. *)
Theorem fit_arguments_shapes (a : FitArgs F) :
  out_fit_args call = Some a ->
  let n := length h + length f in
  length (gx a) = n /\ length (gy a) = n /\ length (gr a) = n /\ length (gv a) = n /\
  length (wgx a) = n /\ length (wgy a) = n /\ length (wgr a) = n /\ length (wgv a) = n /\
  nth_error (gx a) 0 = Some (x0 a) /\ nth_error (gy a) 0 = Some (y0 a) /\
  nth_error (gr a) 0 = Some (r0 a) /\ nth_error (gv a) 0 = Some (v0 a).
Proof.
  intros Hargs n.
  destruct (perturb_fit_args_origin a Hargs)
    as (Hlen & lat & lon & yaw & o & t & _ & Ht & Ha).
  apply apply_offset_length in Ht. rewrite length_joint_trajectory in Ht.
  pose proof (fit_arguments_initial_state _ _ _ _ Ha) as Hinit.
  apply fit_arguments_fields in Ha.
  destruct Ha as (Hgx & Hgy & Hgr & Hgv & Hwx & Hwy & Hwr & Hwv).
  destruct (compute_speeds_defined (map pose_xy t)) as (speeds & Hs & Hsl);
    [rewrite length_map; lia|].
  rewrite Hgv in Hs. injection Hs as <-. rewrite length_map in Hsl.
  unfold py_set in Hwx, Hwy.
  destruct (py_index _ _) as [k|]; [|discriminate].
  injection Hwx as <-. injection Hwy as <-.
  rewrite Hgx, Hgy, Hgr, Hwr, Hwv in *.
  rewrite !length_map, !length_list_set, !repeat_length.
  subst n. repeat (split; [lia || apply Hinit|]). apply Hinit.
Qed.

(** X8: whenever [perturb] calls the fit, for any [H] and [F] (an empty
    history included), the x and y weights are [5] at exactly the row that
    the index [H - 1] denotes and [1] elsewhere: row [H - 1] when there is a
    history frame, and the last row [H + F - 1] when the history is empty,
    since the index [-1] counts from the end. *)
Theorem fit_weights_at_anchor_slot (a : FitArgs F) :
  out_fit_args call = Some a ->
  forall k, k < length h + length f ->
    nth_error (wgx a) k =
      Some (if Nat.eqb k (anchor_slot (length h) (length h + length f))
            then ffive else fone) /\
    nth_error (wgy a) k =
      Some (if Nat.eqb k (anchor_slot (length h) (length h + length f))
            then ffive else fone).
Proof.
  intros Hargs k Hk.
  destruct (perturb_fit_args_origin a Hargs)
    as (Hlen & lat & lon & yaw & o & t & _ & _ & Ha).
  apply fit_arguments_fields in Ha.
  destruct Ha as (_ & _ & _ & _ & Hwx & Hwy & _).
  unfold py_set in Hwx, Hwy. rewrite repeat_length in Hwx, Hwy.
  rewrite py_index_anchor in Hwx, Hwy by lia.
  injection Hwx as <-. injection Hwy as <-.
  assert (anchor_slot (length h) (length h + length f) < length h + length f).
  { unfold anchor_slot. destruct (Nat.eqb_spec (length h) 0); lia. }
  split; apply nth_error_weights; lia.
Qed.

End PerturbEffects.

(** ** The paths of [perturb], given the draws *)

Lemma nth_error_zip3 {F : Type} (xs ys yaws : list F) (k : nat) (p : Pose F) :
  nth_error (zip3 xs ys yaws) k = Some p ->
  nth_error xs k = Some (px p) /\ nth_error ys k = Some (py p) /\
  nth_error yaws k = Some (pyaw p).
Proof.
  revert ys yaws k.
  induction xs as [|x xs IH]; intros [|y ys] [|r yaws] [|k]; simpl;
    try discriminate.
  - intros [= <-]. cbn. auto.
  - apply IH.
Qed.

Lemma zip3_empty {F : Type} (xs ys yaws : list F) :
  xs = [] \/ ys = [] \/ yaws = [] -> zip3 xs ys yaws = [].
Proof.
  intros [->|[->| ->]]; [reflexivity| |].
  - now destruct xs.
  - destruct xs; [reflexivity|]. now destruct ys.
Qed.

Section PerturbPaths.

Context {F Rot Other Rng : Type} `{Scalar F} `{Collaborators F Rot Rng}.

Local Abbreviation frame := (Frame F Rot Other).
Local Abbreviation pose := (Pose F).

Variable self : AckermanPerturbation F Rng.
Variable s : list (list frame).
Variables g g1 g2 : Rng.
Variables history_frames future_frames : nat.
Variables h f : list frame.
Variables u lat lon yaw : F.
Hypothesis history_in_store : nth_error s history_frames = Some h.
Hypothesis future_in_store : nth_error s future_frames = Some f.
Hypothesis draw : np_random_rand g = (u, g1).
Hypothesis sample : random_offset_generator self g1 = (lat, lon, yaw, g2).

Local Abbreviation call := (perturb self s g history_frames future_frames).
Local Abbreviation joint := (_get_history_and_future_frames_as_joint_trajectory h f).

(** X9: [perturb] calls the fit exactly when the draw is below
    [perturb_prob], the sampled lateral offset is not below [1e-5] in
    absolute value, and there are at least two frames in all. *)
Theorem fit_called_iff :
  (exists a, out_fit_args call = Some a) <->
  (fgeb u (perturb_prob self) = false /\
   fltb (fabs lat) NUMERICAL_THRESHOLD = false /\
   2 <= length h + length f).
Proof.
  split.
  - intros [a Ha]. unfold perturb in Ha.
    rewrite history_in_store, future_in_store, draw in Ha.
    destruct (fgeb u (perturb_prob self)); [discriminate|].
    rewrite sample in Ha.
    destruct (fltb (fabs lat) NUMERICAL_THRESHOLD); [discriminate|].
    destruct (Nat.ltb_spec (length h + length f) 2); [discriminate|].
    auto.
  - intros (Hgate & Hlat & Hlen).
    destruct (perturb_reaches_fit self s g _ _ h f g1 g2 u lat lon yaw
                history_in_store future_in_store draw Hgate sample Hlat Hlen)
      as (o & t & a & _ & _ & _ & Hargs & _).
    eauto.
Qed.

(** X10: [perturb] draws once from the random source and, unless that draw
    closes the gate, calls the offset sampler once, on every path, the ones
    that raise included; it warns on the low-lateral path and on no other. *)
Theorem perturb_draws_and_warnings :
  out_rng call = (if fgeb u (perturb_prob self) then g1 else g2) /\
  out_warnings call =
    (if fgeb u (perturb_prob self) then []
     else if fltb (fabs lat) NUMERICAL_THRESHOLD then [low_lateral_warning]
          else []).
Proof.
  unfold perturb. rewrite history_in_store, future_in_store, draw.
  destruct (fgeb u (perturb_prob self)); [split; reflexivity|].
  rewrite sample.
  destruct (fltb (fabs lat) NUMERICAL_THRESHOLD); [split; reflexivity|].
  destruct_perturb; split; reflexivity.
Qed.

Hypothesis gate_open : fgeb u (perturb_prob self) = false.
Hypothesis lateral_large : fltb (fabs lat) NUMERICAL_THRESHOLD = false.
Hypothesis enough_frames : 2 <= length h + length f.

(** X11: on the perturbation path the targets handed to the fit are the
    rows of the joined trajectory, except the one row that the index
    [H - 1] denotes: there the offset returned by [get_offset_at_idx] is
    added to the position and the sampled yaw offset to the yaw, each sum
    stored as [float32]. *)
Theorem fit_targets_differ_only_at_anchor :
  exists offset_m a,
    get_offset_at_idx (map pose_row joint) (Z.of_nat (length h) - 1) lat lon =
      Some offset_m /\
    out_fit_args call = Some a /\
    forall k p, nth_error joint k = Some p ->
      let at_anchor := Nat.eqb k (anchor_slot (length h) (length h + length f)) in
      nth_error (gx a) k =
        Some (if at_anchor then to_float32 (fadd (px p) (fst offset_m)) else px p) /\
      nth_error (gy a) k =
        Some (if at_anchor then to_float32 (fadd (py p) (snd offset_m)) else py p) /\
      nth_error (gr a) k =
        Some (if at_anchor then to_float32 (fadd (pyaw p) yaw) else pyaw p).
Proof.
  destruct (perturb_reaches_fit self s g _ _ h f g1 g2 u lat lon yaw
              history_in_store future_in_store draw gate_open sample
              lateral_large enough_frames)
    as (o & t & a & Ho & Ht & Ha & Hargs & _).
  exists o, a. split; [exact Ho|]. split; [exact Hargs|].
  apply fit_arguments_fields in Ha. destruct Ha as (-> & -> & -> & _).
  pose proof (length_joint_trajectory h f) as Hjoint.
  unfold apply_offset, py_get, py_set in Ht.
  rewrite !Hjoint in Ht. rewrite py_index_anchor in Ht by lia.
  set (slot := anchor_slot (length h) (length h + length f)) in *.
  assert (Hslot : slot < length h + length f).
  { unfold slot, anchor_slot. destruct (Nat.eqb_spec (length h) 0); lia. }
  destruct (nth_error joint slot) as [anchor|] eqn:Hanchor; [|discriminate].
  injection Ht as <-.
  intros k p Hk. cbv zeta. rewrite !list_set_map.
  destruct (Nat.eqb_spec k slot) as [->|Hne].
  - rewrite !nth_error_list_set_eq by (rewrite length_map; lia).
    assert (p = anchor) by congruence. subst p. cbn. auto.
  - rewrite !nth_error_list_set_ne by congruence.
    rewrite !nth_error_map, Hk. cbn. auto.
Qed.

(** X12: on the perturbation path, when the fit returns [H + F] samples,
    [perturb] returns two new buffers in which history frame [k] carries
    fitted sample [H - 1 - k] and future frame [j] carries fitted sample
    [H + j]: the sample's [x] and [y] in [ego_translation] and the rotation
    of its yaw in [ego_rotation]. *)
Theorem perturb_writes_fitted_samples :
  exists a,
    out_fit_args call = Some a /\
    (fit_returns_length (length h + length f) a ->
     let fitted := fit_ackerman_model_exact a in
     exists h' f',
       out_result call = Some (length s, S (length s)) /\
       nth_error (out_store call) (length s) = Some h' /\
       nth_error (out_store call) (S (length s)) = Some f' /\
       (forall k fr, nth_error h k = Some fr ->
          exists p,
            nth_error (new_xs fitted) (length h - 1 - k) = Some (px p) /\
            nth_error (new_ys fitted) (length h - 1 - k) = Some (py p) /\
            nth_error (new_yaws fitted) (length h - 1 - k) = Some (pyaw p) /\
            nth_error h' k = Some (written_back fr p)) /\
       (forall j fr, nth_error f j = Some fr ->
          exists p,
            nth_error (new_xs fitted) (length h + j) = Some (px p) /\
            nth_error (new_ys fitted) (length h + j) = Some (py p) /\
            nth_error (new_yaws fitted) (length h + j) = Some (pyaw p) /\
            nth_error f' j = Some (written_back fr p))).
Proof.
  destruct (perturb_reaches_fit self s g _ _ h f g1 g2 u lat lon yaw
              history_in_store future_in_store draw gate_open sample
              lateral_large enough_frames)
    as (o & t & a & Ho & Ht & Ha & Hargs & Hret).
  exists a. split; [exact Hargs|]. intros Hfit fitted.
  specialize (Hret Hfit).
  destruct Hfit as (Hx & Hy & Hr).
  set (traj := zip3 (new_xs fitted) (new_ys fitted) (new_yaws fitted)).
  assert (Htraj : length traj = length h + length f)
    by apply (length_zip3 _ _ _ _ Hx Hy Hr).
  destruct (perturb_result_cases self s g _ _ h f history_in_store future_in_store
              _ _ Hret) as (h' & f' & Hh' & Hf' & _).
  exists h', f'. repeat (split; [assumption|]).
  assert (Hsplit : split_joint_trajectory h f traj = Some (h', f')).
  { revert Hh' Hf'. unfold perturb.
    rewrite history_in_store, future_in_store, draw, gate_open, sample, lateral_large.
    destruct (Nat.ltb_spec (length h + length f) 2) as [|_]; [lia|].
    rewrite Ho, Ht, Ha. fold fitted traj.
    destruct (split_joint_trajectory_defined h f traj) as (h1 & f1 & Hs);
      [lia|assumption|].
    rewrite Hs. cbn [out_store].
    rewrite nth_error_list_set_ne by (rewrite length_app; simpl; lia).
    rewrite nth_error_list_set_eq by (rewrite !length_app; simpl; lia).
    replace (S (length s)) with (length (s ++ [h]))
      by (rewrite length_app; simpl; lia).
    rewrite nth_error_list_set_eq
      by (rewrite length_list_set, !length_app; simpl; lia).
    now intros [= ->] [= ->]. }
  rewrite split_joint_trajectory_closed_form in Hsplit by lia.
  injection Hsplit as <- <-.
  split.
  - intros k fr Hk.
    assert (Hkh : k < length h) by (apply nth_error_Some; congruence).
    destruct (nth_error traj (length h - 1 - k)) as [p|] eqn:Hp;
      [|apply nth_error_None in Hp; lia].
    exists p. destruct (nth_error_zip3 _ _ _ _ _ Hp) as (Hpx & Hpy & Hpr).
    repeat (split; [assumption|]).
    assert (Hrow : nth_error (map2 written_back (rev h) (firstn (length h) traj))
                             (length h - 1 - k) = Some (written_back fr p)).
    { apply nth_error_map2.
      - now apply nth_error_rev_slot.
      - rewrite nth_error_firstn.
        destruct (Nat.ltb_spec (length h - 1 - k) (length h)); [assumption|lia]. }
    apply nth_error_rev_slot in Hrow.
    rewrite length_map2, length_rev, length_firstn in Hrow.
    replace (Nat.min (length h) (Nat.min (length h) (length traj)) - 1 -
             (length h - 1 - k)) with k in Hrow by lia.
    exact Hrow.
  - intros j fr Hj.
    assert (Hjf : j < length f) by (apply nth_error_Some; congruence).
    destruct (nth_error traj (length h + j)) as [p|] eqn:Hp;
      [|apply nth_error_None in Hp; lia].
    exists p. destruct (nth_error_zip3 _ _ _ _ _ Hp) as (Hpx & Hpy & Hpr).
    repeat (split; [assumption|]).
    apply nth_error_map2; [assumption|].
    now rewrite nth_error_skipn.
Qed.

(** X13: on the perturbation path, if the fit returns an empty sequence of
    xs, ys or yaws, [perturb] raises instead of returning; the caller's
    buffers are as they were. *)
Theorem perturb_raises_on_empty_fit :
  (forall a, new_xs (fit_ackerman_model_exact a) = [] \/
             new_ys (fit_ackerman_model_exact a) = [] \/
             new_yaws (fit_ackerman_model_exact a) = []) ->
  out_result (perturb self s g history_frames future_frames) = None /\
  nth_error (out_store (perturb self s g history_frames future_frames))
            history_frames = Some h /\
  nth_error (out_store (perturb self s g history_frames future_frames))
            future_frames = Some f.
Proof.
  intros Hempty.
  split; [|split; now apply perturb_store_preserved].
  destruct (perturb_reaches_fit self s g _ _ h f g1 g2 u lat lon yaw
              history_in_store future_in_store draw gate_open sample
              lateral_large enough_frames)
    as (o & t & a & Ho & Ht & Ha & _).
  unfold perturb.
  rewrite history_in_store, future_in_store, draw, gate_open, sample, lateral_large.
  destruct (Nat.ltb_spec (length h + length f) 2) as [|_]; [lia|].
  rewrite Ho, Ht, Ha. rewrite (zip3_empty _ _ _ (Hempty a)). reflexivity.
Qed.

End PerturbPaths.

(** ** Speeds in exact arithmetic *)

Lemma Forall_list_set {A : Type} (P : A -> Prop) (l : list A) (k : nat) (v : A) :
  Forall P l -> P v -> Forall P (list_set l k v).
Proof.
  intros Hl Hv. revert k.
  induction Hl as [|x l Hx Hl IH]; intros [|k]; simpl; constructor; auto.
Qed.

Lemma Forall_map2 {A B C : Type} (P : C -> Prop) (g : A -> B -> C)
      (a : list A) (b : list B) :
  (forall x y, P (g x y)) -> Forall P (map2 g a b).
Proof.
  intros Hg. revert b.
  induction a as [|x a IH]; intros [|y b]; simpl; constructor; auto.
Qed.

Section RealSpeeds.

Import ExactReal.

Local Open Scope R_scope.

(** X14: in exact arithmetic no speed returned by
    [_compute_speeds_from_positions] is negative. *)
Theorem real_speeds_nonnegative (trajectory : list (R * R)) (speeds : list R) :
  _compute_speeds_from_positions trajectory = Some speeds ->
  Forall (fun v => 0 <= v) speeds.
Proof.
  unfold _compute_speeds_from_positions.
  set (before := _ ++ _).
  assert (Hbefore : Forall (fun v => 0 <= v) before).
  { unfold before. apply Forall_app. split.
    - apply Forall_map2. intros p q. unfold step_length. cbn. apply sqrt_pos.
    - apply Forall_forall. intros v Hv.
      apply In_nth_error in Hv. destruct Hv as [j Hj].
      rewrite nth_error_skipn in Hj. apply nth_error_In, repeat_spec in Hj.
      subst v. cbn. lra. }
  destruct (py_get before (-2)) as [v|] eqn:Hv; [|discriminate].
  unfold py_set. destruct (py_index _ _) as [k|]; [|discriminate].
  intros [= <-]. apply Forall_list_set; [assumption|].
  unfold py_get in Hv. destruct (py_index _ (-2)) as [j|]; [|discriminate].
  rewrite Forall_forall in Hbefore. apply Hbefore.
  eapply nth_error_In; eauto.
Qed.

End RealSpeeds.

(** * Instances of the further properties *)

Section FurtherInstances.

Import Float64 Stub.

Local Open Scope float_scope.


(** An instance of X5: two history frames and two future frames. *)
Lemma joint_trajectory_layout_witness :
  let joint := _get_history_and_future_frames_as_joint_trajectory history2 future2 in
  length joint = (length history2 + length future2)%nat /\
  (forall k fr, nth_error history2 k = Some fr ->
     nth_error joint (length history2 - 1 - k)%nat = Some (frame_pose fr)) /\
  (forall j fr, nth_error future2 j = Some fr ->
     nth_error joint (length history2 + j)%nat = Some (frame_pose fr)).
Proof.
  exact (joint_trajectory_layout history2 future2).
Defined.

(** An instance of X6 on the perturbation path. *)
Lemma perturb_keeps_untouched_fields_witness :
  let self := fixed_offset 1 1 0 0.25 in
  let s := [history2; future2] in
  out_result (perturb self s [0] 0 1) = Some (2%nat, 3%nat) /\
  exists h' f',
    nth_error (out_store (perturb self s [0] 0 1)) 2 = Some h' /\
    nth_error (out_store (perturb self s [0] 0 1)) 3 = Some f' /\
    Forall2 same_untouched_fields history2 h' /\
    Forall2 same_untouched_fields future2 f'.
Proof.
  cbv zeta. split; [vm_compute; reflexivity|].
  apply (perturb_keeps_untouched_fields (fixed_offset 1 1 0 0.25)
           [history2; future2] [0] 0 1 history2 future2 eq_refl eq_refl 2 3).
  vm_compute. reflexivity.
Defined.

(** An instance of X7. *)
Lemma fit_arguments_shapes_witness :
  let self := fixed_offset 1 1 0 0.25 in
  let s := [history2; future2] in
  exists a,
    out_fit_args (perturb self s [0] 0 1) = Some a /\
    length (gx a) = 4%nat /\ length (gy a) = 4%nat /\
    length (gr a) = 4%nat /\ length (gv a) = 4%nat /\
    length (wgx a) = 4%nat /\ length (wgy a) = 4%nat /\
    length (wgr a) = 4%nat /\ length (wgv a) = 4%nat /\
    nth_error (gx a) 0 = Some (x0 a) /\ nth_error (gy a) 0 = Some (y0 a) /\
    nth_error (gr a) 0 = Some (r0 a) /\ nth_error (gv a) 0 = Some (v0 a).
Proof.
  cbv zeta. eexists. split; [vm_compute; reflexivity|].
  apply (fit_arguments_shapes (fixed_offset 1 1 0 0.25)
           [history2; future2] [0] 0 1 history2 future2 eq_refl eq_refl).
  vm_compute. reflexivity.
Defined.

(** An instance of X8 with an empty history: the weight [5] is at the last
    row. *)
Lemma fit_weights_at_anchor_slot_witness :
  let self := fixed_offset 1 1 0 0.25 in
  let h : list (Frame float float unit) := [] in
  let s := [h; future2] in
  exists a,
    out_fit_args (perturb self s [0] 0 1) = Some a /\
    forall k, (k < length h + length future2)%nat ->
      nth_error (wgx a) k =
        Some (if Nat.eqb k (anchor_slot (length h) (length h + length future2)%nat)
              then ffive else fone) /\
      nth_error (wgy a) k =
        Some (if Nat.eqb k (anchor_slot (length h) (length h + length future2)%nat)
              then ffive else fone).
Proof.
  cbv zeta. eexists. split; [vm_compute; reflexivity|].
  apply (fit_weights_at_anchor_slot (fixed_offset 1 1 0 0.25)
           [[]; future2] [0] 0 1 [] future2 eq_refl eq_refl).
  vm_compute. reflexivity.
Defined.

(** An instance of X9: the three conditions hold and the fit is called. *)
Lemma fit_called_iff_witness :
  let self := fixed_offset 1 1 0 0.25 in
  let s := [history2; future2] in
  (exists a, out_fit_args (perturb self s [0] 0 1) = Some a) <->
  (fgeb 0 (perturb_prob self) = false /\
   fltb (fabs 1) NUMERICAL_THRESHOLD = false /\
   (2 <= length history2 + length future2)%nat).
Proof.
  exact (fit_called_iff (fixed_offset 1 1 0 0.25) [history2; future2]
           [0] [] [] 0 1 history2 future2 0 1 0 0.25
           eq_refl eq_refl eq_refl eq_refl).
Defined.

(** An instance of X10 on the low-lateral path. *)
Lemma perturb_draws_and_warnings_witness :
  let self := fixed_offset 1 0 3 0.5 in
  let s := [history2; future2] in
  out_rng (perturb self s [0; 0.5] 0 1) =
    (if fgeb 0 (perturb_prob self) then [0.5] else [0.5]) /\
  out_warnings (perturb self s [0; 0.5] 0 1) =
    (if fgeb 0 (perturb_prob self) then []
     else if fltb (fabs 0) NUMERICAL_THRESHOLD then [low_lateral_warning]
          else []).
Proof.
  exact (perturb_draws_and_warnings (fixed_offset 1 0 3 0.5) [history2; future2]
           [0; 0.5] [0.5] [0.5] 0 1 history2 future2 0 0 3 0.5
           eq_refl eq_refl eq_refl eq_refl).
Defined.

(** An instance of X11. *)
Lemma fit_targets_witness :
  let self := fixed_offset 1 1 0 0.25 in
  let s := [history2; future2] in
  let joint := _get_history_and_future_frames_as_joint_trajectory history2 future2 in
  exists offset_m a,
    get_offset_at_idx (map pose_row joint) (Z.of_nat (length history2) - 1) 1 0 =
      Some offset_m /\
    out_fit_args (perturb self s [0] 0 1) = Some a /\
    forall k p, nth_error joint k = Some p ->
      let at_anchor :=
        Nat.eqb k (anchor_slot (length history2) (length history2 + length future2)%nat) in
      nth_error (gx a) k =
        Some (if at_anchor then to_float32 (fadd (px p) (fst offset_m)) else px p) /\
      nth_error (gy a) k =
        Some (if at_anchor then to_float32 (fadd (py p) (snd offset_m)) else py p) /\
      nth_error (gr a) k =
        Some (if at_anchor then to_float32 (fadd (pyaw p) 0.25) else pyaw p).
Proof.
  exact (fit_targets_differ_only_at_anchor (fixed_offset 1 1 0 0.25)
           [history2; future2] [0] [] [] 0 1 history2 future2 0 1 0 0.25
           eq_refl eq_refl eq_refl eq_refl eq_refl eq_refl (le_S 2 3 (le_S 2 2 (le_n 2)))).
Defined.

(** An instance of X12, with the fit that returns its targets. *)
Lemma perturb_writes_fitted_samples_witness :
  let self := fixed_offset 1 1 0 0.25 in
  let s := [history2; future2] in
  exists a,
    out_fit_args (perturb self s [0] 0 1) = Some a /\
    fit_returns_length (length history2 + length future2)%nat a /\
    exists h' f',
      out_result (perturb self s [0] 0 1) = Some (2%nat, 3%nat) /\
      nth_error (out_store (perturb self s [0] 0 1)) 2 = Some h' /\
      nth_error (out_store (perturb self s [0] 0 1)) 3 = Some f' /\
      (forall k fr, nth_error history2 k = Some fr ->
         exists p,
           nth_error (new_xs (fit_ackerman_model_exact a)) (2 - 1 - k)%nat = Some (px p) /\
           nth_error (new_ys (fit_ackerman_model_exact a)) (2 - 1 - k)%nat = Some (py p) /\
           nth_error (new_yaws (fit_ackerman_model_exact a)) (2 - 1 - k)%nat = Some (pyaw p) /\
           nth_error h' k = Some (written_back fr p)) /\
      (forall j fr, nth_error future2 j = Some fr ->
         exists p,
           nth_error (new_xs (fit_ackerman_model_exact a)) (2 + j)%nat = Some (px p) /\
           nth_error (new_ys (fit_ackerman_model_exact a)) (2 + j)%nat = Some (py p) /\
           nth_error (new_yaws (fit_ackerman_model_exact a)) (2 + j)%nat = Some (pyaw p) /\
           nth_error f' j = Some (written_back fr p)).
Proof.
  cbv zeta.
  destruct (@perturb_writes_fitted_samples float float unit (list float)
              Float64.scalar float_collaborators (fixed_offset 1 1 0 0.25)
              [history2; future2] [0] [] [] 0 1 history2 future2 0 1 0 0.25
              eq_refl eq_refl eq_refl eq_refl eq_refl eq_refl
              (le_S 2 3 (le_S 2 2 (le_n 2)))) as (a & Hargs & Hwrite).
  exists a. split; [exact Hargs|].
  assert (Hfit : fit_returns_length (length history2 + length future2)%nat a).
  { pose proof (f_equal (fun o => match o with
                                  | Some x => fit_returns_length 4 x
                                  | None => True
                                  end) Hargs) as E.
    cbv beta iota in E. change (length history2 + length future2)%nat with 4%nat.
    rewrite <- E. vm_compute. repeat split. }
  split; [exact Hfit|]. exact (Hwrite Hfit).
Defined.

(** An instance of X13, with a fit that returns nothing. *)
Lemma perturb_raises_on_empty_fit_witness :
  let self := fixed_offset 1 1 0 0.25 in
  let s := [history2; future2] in
  let r := @perturb float float unit (list float) Float64.scalar
             EmptyFit.collaborators self s [0] 0 1 in
  out_result r = None /\
  nth_error (out_store r) 0 = Some history2 /\
  nth_error (out_store r) 1 = Some future2.
Proof.
  apply (@perturb_raises_on_empty_fit float float unit (list float) Float64.scalar
           EmptyFit.collaborators (fixed_offset 1 1 0 0.25)
           [history2; future2] [0] [] [] 0 1 history2 future2 0 1 0 0.25);
    try reflexivity.
  - cbn. lia.
  - intros a. left. reflexivity.
Defined.

End FurtherInstances.

Section FurtherRealInstances.

Import ExactReal.

Local Open Scope R_scope.

Lemma real_sqrt_far (x r : R) :
  1 / 100000 <= r -> x = r * r -> Rltb (R_sqrt.sqrt x) (1 / 100000) = false.
Proof.
  intros Hr ->. rewrite sqrt_square by lra. unfold Rltb.
  destruct (Rlt_dec r (1 / 100000)); [lra|reflexivity].
Qed.

Lemma real_step_3_4_far :
  fltb (norm (vsub [3; 4] [0; 0])) f_1e_5 = false.
Proof. cbn. apply (real_sqrt_far _ 5); lra. Qed.

Lemma real_step_3_4_12_far :
  fltb (norm (vsub [3; 4; 12] [0; 0; 0])) f_1e_5 = false.
Proof. cbn. apply (real_sqrt_far _ 13); lra. Qed.

(** An instance of X3: the step from [(0,0)] to [(3,4)], offsets [1] and
    [2]. *)
Lemma real_offset_components_witness :
  fltb (norm (vsub [3; 4] [0; 0])) f_1e_5 = false /\
  let n := R_sqrt.sqrt ((3 - 0) * (3 - 0) + (4 - 0) * (4 - 0)) in
  let dx := (3 - 0) / n in
  let dy := (4 - 0) / n in
  exists ox oy,
    get_offset_at_idx [[0; 0]; [3; 4]] 0 1 2 = Some (ox, oy) /\
    ox * dx + oy * dy = 2 /\
    ox * dy - oy * dx = 1 /\
    ox * ox + oy * oy = 1 * 1 + 2 * 2.
Proof.
  split; [exact real_step_3_4_far|].
  exact (real_offset_has_requested_components [[0; 0]; [3; 4]] 0 1 2 0 0 3 4
           eq_refl eq_refl real_step_3_4_far).
Defined.

(** An instance of X4: the same step with a yaw difference of [12]; the
    offset keeps [25/169] of its squared length. *)
Lemma real_offset_scaled_witness :
  let p := {| px := 0; py := 0; pyaw := 0 |} in
  let q := {| px := 3; py := 4; pyaw := 12 |} in
  fltb (norm (vsub (pose_row q) (pose_row p))) f_1e_5 = false /\
  exists ox oy,
    get_offset_at_idx (map pose_row [p; q]) 0 1 2 = Some (ox, oy) /\
    (ox * ox + oy * oy) *
      ((3 - 0) * (3 - 0) + (4 - 0) * (4 - 0) + (12 - 0) * (12 - 0)) =
    (1 * 1 + 2 * 2) * ((3 - 0) * (3 - 0) + (4 - 0) * (4 - 0)).
Proof.
  cbv zeta. split; [exact real_step_3_4_12_far|].
  exact (real_offset_scaled_by_yaw_step
           [{| px := 0; py := 0; pyaw := 0 |}; {| px := 3; py := 4; pyaw := 12 |}]
           0 1 2 {| px := 0; py := 0; pyaw := 0 |} {| px := 3; py := 4; pyaw := 12 |}
           eq_refl eq_refl real_step_3_4_12_far).
Defined.

(** An instance of X14: two positions. *)
Lemma real_speeds_nonnegative_witness :
  exists speeds,
    _compute_speeds_from_positions [(0, 0); (3, 4)] = Some speeds /\
    Forall (fun v => 0 <= v) speeds.
Proof.
  eexists. split; [reflexivity|].
  apply (real_speeds_nonnegative [(0, 0); (3, 4)]). reflexivity.
Defined.

End FurtherRealInstances.

(** * The step that gives the anchor its direction *)


Section AnchorDirection.

Context {F Rot Other Rng : Type} `{Scalar F} `{Collaborators F Rot Rng}.

Local Abbreviation frame := (Frame F Rot Other).



End AnchorDirection.

Section AnchorDirectionInstances.

Import Float64 Stub.

Local Open Scope float_scope.



End AnchorDirectionInstances.

(** * Where the code departs from what its comments describe *)

Section Divergences.

Import Float64 ExactReal Stub.

Lemma real_pose_step_far :
  fltb (norm (vsub [4; 6; 13] [1; 2; 1])%R) f_1e_5 = false.
Proof. cbn. apply (real_sqrt_far _ 13); lra. Qed.

Lemma real_position_step_far :
  fltb (norm (vsub [4; 6] [1; 2])%R) f_1e_5 = false.
Proof. cbn. apply (real_sqrt_far _ 5); lra. Qed.

Lemma real_offset_on_pose_rows :
  get_offset_at_idx [[1; 2; 1]; [4; 6; 13]]%R 0 1%R 2%R = Some (10 / 13, 5 / 13)%R.
Proof.
  rewrite (get_offset_at_idx_step [[1; 2; 1]; [4; 6; 13]]%R 0%Z 1%R 2%R
             [1; 2; 1]%R [4; 6; 13]%R eq_refl eq_refl real_pose_step_far).
  cbn.
  replace (0 + (4 - 1) * (4 - 1) + (6 - 2) * (6 - 2) + (13 - 1) * (13 - 1))%R
    with (13 * 13)%R by lra.
  rewrite sqrt_square by lra. f_equal. f_equal; lra.
Qed.

Lemma real_offset_on_position_rows :
  get_offset_at_idx [[1; 2]; [4; 6]]%R 0 1%R 2%R = Some (2, 1)%R.
Proof.
  rewrite (get_offset_at_idx_step [[1; 2]; [4; 6]]%R 0%Z 1%R 2%R
             [1; 2]%R [4; 6]%R eq_refl eq_refl real_position_step_far).
  cbn.
  replace (0 + (4 - 1) * (4 - 1) + (6 - 2) * (6 - 2))%R with (5 * 5)%R by lra.
  rewrite sqrt_square by lra. f_equal. f_equal; lra.
Qed.

(** C5: the code at the failing input.  Between the rows [(1, 2, 1)] and
    [(4, 6, 13)] of a trajectory with a yaw column, as [perturb] passes
    them, the step in position is [(3, 4)], the unit direction of travel is
    [(3/5, 4/5)], and [lateral_m * lateral + longitudinal_m * dir] for
    [lateral_m = 1], [longitudinal_m = 2] is [(2, 1)]: that is what
    [get_offset_at_idx] returns on the two position columns alone, in exact
    arithmetic and in binary64.  With the yaw column the step is divided by
    the norm [13] of the whole row and the result is [(10/13, 5/13)]; in
    binary64 both components are below [1]. *)
Theorem get_offset_at_idx_on_pose_rows_is_not_unit_direction :
  get_offset_at_idx [[1; 2; 1]; [4; 6; 13]]%R 0 1%R 2%R = Some (10 / 13, 5 / 13)%R /\
  get_offset_at_idx [[1; 2]; [4; 6]]%R 0 1%R 2%R = Some (2, 1)%R /\
  get_offset_at_idx [[1; 2]; [4; 6]]%float 0 1%float 2%float = Some (2, 1)%float /\
  exists a b,
    get_offset_at_idx [[1; 2; 1]; [4; 6; 13]]%float 0 1%float 2%float = Some (a, b) /\
    (a <? 1)%float = true /\ (b <? 1)%float = true.
Proof.
  split; [exact real_offset_on_pose_rows|].
  split; [exact real_offset_on_position_rows|].
  split; [reflexivity|].
  eexists _, _. split; [vm_compute; reflexivity|]. split; reflexivity.
Qed.

(** C6: the code at the failing inputs, in binary64 (every intermediate
    value is exact).  A trajectory whose position stays at [(1, 1)] between
    rows [0] and [1] while its yaw turns by [0.5], and which ends at
    [(3, 1)]: the step's norm is taken over the whole row, so the point does
    not count as stationary, there is no fallback to the overall
    displacement, and the offset for [lateral_m = 1] is zero; on the same
    positions without the yaw column the fallback gives [(0, -1)].  And at
    index [-1], the last row, which no row follows, the result is not the
    zero vector, because row [0] is taken as the next point; at index [1],
    the same row, it is the zero vector. *)
Theorem get_offset_at_idx_misses_stationary_point_and_last_row :
  get_offset_at_idx [[1; 1; 0]; [1; 1; 0.5]; [3; 1; 0.5]]%float 0 1%float 0%float =
    Some (0, 0)%float /\
  get_offset_at_idx [[1; 1]; [1; 1]; [3; 1]]%float 0 1%float 0%float =
    Some (0, -1)%float /\
  get_offset_at_idx [[1; 1]; [2; 1]]%float (-1) 1%float 0%float = Some (0, 1)%float /\
  get_offset_at_idx [[1; 1]; [2; 1]]%float 1 1%float 0%float = Some (0, 0)%float.
Proof. repeat split; reflexivity. Qed.

(** C9: the code at the failing input.  With an empty history and two
    future frames, [perturb] reaches the fit and passes the x and y weights
    [[1; 5]]: there is no anchor frame, the index [H - 1 = -1] denotes the
    last row, and the weight [5] falls on the last future frame.  With two
    history frames and two future frames the weights are [[1; 5; 1; 1]],
    the [5] on the newest history frame. *)
Theorem fit_weights_with_empty_history :
  let empty : list (Frame float float unit) := [] in
  let without_history :=
    perturb (fixed_offset 1 1 0 0.25)%float [empty; future2] [0%float] 0 1 in
  let with_history :=
    perturb (fixed_offset 1 1 0 0.25)%float [history2; future2] [0%float] 0 1 in
  option_map (@wgx float) (out_fit_args without_history) = Some [1; 5]%float /\
  option_map (@wgy float) (out_fit_args without_history) = Some [1; 5]%float /\
  option_map (@wgx float) (out_fit_args with_history) = Some [1; 5; 1; 1]%float /\
  option_map (@wgy float) (out_fit_args with_history) = Some [1; 5; 1; 1]%float.
Proof. cbv zeta. repeat split; vm_compute; reflexivity. Qed.

End Divergences.
